(** * NoScreen backend: session completion, statistics and schedules

  A shallow embedding of the request handlers of [server.py] together with
  the parts of the Python runtime they rely on ([datetime], binary64
  floats, [bson.ObjectId]) and of the three MongoDB collections they read
  and write.  Handlers are state-passing functions over a [db] record;
  what the handler reads from its environment (the clock of
  [datetime.utcnow()], the identifier the driver generates for an inserted
  document, the draw of [random.choice]) is an explicit argument.  A
  collection is the list of its documents in storage order, each kept as
  the handler handed it to the driver. *)

From Stdlib Require Import ZArith Floats Ascii String.
From stdpp Require Import base option list strings.

Open Scope Z_scope.

(** ** Python's [datetime] *)

Module Datetime.

(** A naive [datetime.datetime]: the handlers only build them with
    [datetime.utcnow()]. *)
Record datetime := mk_datetime {
  year : Z; month : Z; day : Z;
  hour : Z; minute : Z; second : Z; microsecond : Z
}.

#[global] Instance datetime_eq_dec : EqDecision datetime.
Proof. solve_decision. Defined.

Definition is_leap (y : Z) : bool :=
  (y mod 4 =? 0) && (negb (y mod 100 =? 0) || (y mod 400 =? 0)).

Definition days_before_year (y : Z) : Z :=
  let y' := y - 1 in y' * 365 + y' / 4 - y' / 100 + y' / 400.

(** [_DAYS_BEFORE_MONTH] of the standard library. *)
Definition DAYS_BEFORE_MONTH (m : Z) : Z :=
  match m with
  | 1 => 0 | 2 => 31 | 3 => 59 | 4 => 90 | 5 => 120 | 6 => 151
  | 7 => 181 | 8 => 212 | 9 => 243 | 10 => 273 | 11 => 304 | 12 => 334
  | _ => 0
  end.

Definition days_before_month (y m : Z) : Z :=
  DAYS_BEFORE_MONTH m + (if (2 <? m) && is_leap y then 1 else 0).

(** [date.toordinal()]: 1 is 0001-01-01, a Monday. *)
Definition toordinal (t : datetime) : Z :=
  days_before_year (year t) + days_before_month (year t) (month t) + day t.

(** [date.weekday()]: 0 is Monday, 6 is Sunday. *)
Definition weekday (t : datetime) : Z := (toordinal t + 6) mod 7.

(** [(a.date() - b.date()).days] *)
Definition date_diff_days (a b : datetime) : Z := toordinal a - toordinal b.

Definition seconds_of_day (t : datetime) : Z :=
  second t + minute t * 60 + hour t * 3600.

(** [a - b] as a [timedelta], held as its total number of microseconds
    (normalising a timedelta to days, seconds and microseconds keeps that
    number). *)
Definition sub_microseconds (a b : datetime) : Z :=
  ((toordinal a - toordinal b) * 86400 + (seconds_of_day a - seconds_of_day b))
  * 1000000 + (microsecond a - microsecond b).

End Datetime.
Export Datetime.

(** ** Python floats *)

Module PyFloat.

(** [float(n)] for an [int]: exact below 2^53 in absolute value and
    rounded to nearest below 2^63, which bounds what the handlers convert
    (the microseconds between two datetimes stay below 2^59). *)
Definition float_of_int (z : Z) : float :=
  match z with
  | Z0 => 0%float
  | Zpos _ => of_uint63 (Uint63.of_Z z)
  | Zneg p => (- of_uint63 (Uint63.of_Z (Zpos p)))%float
  end.

(** [timedelta.total_seconds()]: the microseconds over [10**6], a true
    division of two [int]s.  Both convert exactly for spans shorter than
    2^53 microseconds (285 years), where it is this float division. *)
Definition total_seconds (us : Z) : float :=
  (float_of_int us / float_of_int 1000000)%float.

Definition zeros7 : list float := replicate 7 0%float.

(** Python's [==] on floats. *)
Definition float_eq (x y : float) : Prop := PrimFloat.eqb x y = true.

(** [z + x1 + x2 + ... + xn], added left to right as the handler
    accumulates them. *)
Definition float_sum (z : float) (l : list float) : float :=
  fold_left PrimFloat.add l z.

(** [x1 + x2 + ... + xn]; the empty sum is [0.0]. *)
Definition sum_hours (l : list float) : float :=
  match l with
  | [] => 0%float
  | x :: l' => float_sum x l'
  end.

(** Not a NaN. *)
Definition is_number (x : spec_float) : Prop := x <> S754_nan.

(** Not negative, the sign of a zero included. *)
Definition sign_clear (x : spec_float) : Prop :=
  match x with
  | S754_zero s | S754_infinity s | S754_finite s _ _ => s = false
  | S754_nan => True
  end.

End PyFloat.
Export PyFloat.

(** ** [bson.ObjectId] *)

Module Bson.

(** Twelve bytes once validated; shorter values can come out of a
    24-character string that holds white space (see [fromhex]). *)
Definition ObjectId := list N.

Definition hexval (c : ascii) : option N :=
  let n := N_of_ascii c in
  if (48 <=? n)%N && (n <=? 57)%N then Some (n - 48)%N
  else if (97 <=? n)%N && (n <=? 102)%N then Some (n - 87)%N
  else if (65 <=? n)%N && (n <=? 70)%N then Some (n - 55)%N
  else None.

(** ASCII white space, which [bytes.fromhex] skips between bytes. *)
Definition is_space (c : ascii) : bool :=
  let n := N_of_ascii c in
  (n =? 32)%N || ((9 <=? n)%N && (n <=? 13)%N).

(** [bytes.fromhex]; [None] is its [ValueError]. *)
Fixpoint fromhex (s : string) : option (list N) :=
  match s with
  | EmptyString => Some []
  | String c s' =>
      if is_space c then fromhex s' else
      match hexval c, s' with
      | Some h, String c2 s'' =>
          match hexval c2 with
          | Some l => cons (16 * h + l)%N <$> fromhex s''
          | None => None
          end
      | _, _ => None
      end
  end.

(** [ObjectId(oid)] for a [str]: [None] is [bson.errors.InvalidId]. *)
Definition ObjectId_of_str (oid : string) : option ObjectId :=
  if bool_decide (String.length oid = 24%nat) then fromhex oid else None.

Definition hexdigit (n : N) : ascii :=
  ascii_of_N (if (n <? 10)%N then n + 48 else n + 87)%N.

(** [str(oid)]: lower-case hexadecimal. *)
Fixpoint str_of_ObjectId (o : ObjectId) : string :=
  match o with
  | [] => EmptyString
  | b :: o' =>
      String (hexdigit (b / 16)%N) (String (hexdigit (b mod 16)%N) (str_of_ObjectId o'))
  end.

End Bson.
Export Bson.

(** ** The document store *)

Module Store.

(** A document of [db.focus_sessions], as [start_session] inserts it. *)
Record session_doc := mk_session {
  s_id : ObjectId;
  s_userId : string;
  startTime : datetime;
  endTime : option datetime;
  duration : Z;
  completed : bool;
  quote : string;
  s_createdAt : datetime
}.

(** A document of [db.user_stats].  The handler reads [totalHours] and
    [sessionsCount] by subscript and the other three with [dict.get], so
    those three may be missing. *)
Record stats_doc := mk_stats {
  st_id : ObjectId;
  userId : string;
  totalHours : float;
  sessionsCount : Z;
  currentStreak : option Z;
  lastSessionDate : option datetime;
  weeklyData : option (list float)
}.

(** A document of [db.schedules]; [enabled] is read with [dict.get]. *)
Record schedule_doc := mk_schedule {
  sc_id : ObjectId;
  sc_userId : string;
  time : string;
  days : list string;
  enabled : option bool;
  name : string;
  sc_createdAt : datetime
}.

Record db := mk_db {
  focus_sessions : list session_doc;
  user_stats : list stats_doc;
  schedules : list schedule_doc
}.

Definition empty_db : db := mk_db [] [] [].

Section Collection.
Context {A : Type}.

(** [find_one]: the first document, in storage order, that matches. *)
Fixpoint find_one (p : A -> bool) (l : list A) : option A :=
  match l with
  | [] => None
  | x :: l' => if p x then Some x else find_one p l'
  end.

(** [update_one] with a [$set]: [f] applied to the first match. *)
Fixpoint update_one (p : A -> bool) (f : A -> A) (l : list A) : list A :=
  match l with
  | [] => []
  | x :: l' => if p x then f x :: l' else x :: update_one p f l'
  end.

(** [insert_one] *)
Definition insert_one (x : A) (l : list A) : list A := l ++ [x].

(** [find(filter).to_list(n)] *)
Definition find_to_list (p : A -> bool) (n : nat) (l : list A) : list A :=
  take n (List.filter p l).
End Collection.

Definition by_session_id (o : ObjectId) (s : session_doc) : bool :=
  bool_decide (s_id s = o).
Definition by_userId (u : string) (s : stats_doc) : bool :=
  bool_decide (userId s = u).
Definition by_schedule_id (o : ObjectId) (s : schedule_doc) : bool :=
  bool_decide (sc_id s = o).
Definition by_schedule_user (u : string) (s : schedule_doc) : bool :=
  bool_decide (sc_userId s = u).

End Store.
Export Store.

(** ** The handlers *)

Module Server.

(** How a request can fail: [HTTPException(status_code=404)], or an
    exception nothing catches (a 500 response). *)
Inductive error :=
| NotFound (detail : string)
| InvalidId
| IndexError.

Inductive result (A : Type) :=
| Ok (a : A)
| Err (e : error).
Arguments Ok {A} a.
Arguments Err {A} e.

(** [(end_time - start_time).total_seconds() / 3600] *)
Definition actual_duration (start_time end_time : datetime) : float :=
  (total_seconds (sub_microseconds end_time start_time) / 3600)%float.

(** [POST /sessions/start]; [new_id] is the identifier of the inserted
    document and [quote] the random choice. *)
Definition start_session (d : db) (userId : string) (duration : Z)
    (now : datetime) (created : datetime) (quote : string) (new_id : ObjectId)
    : db * session_doc :=
  let session := mk_session new_id userId now None duration false quote created in
  (mk_db (insert_one session (focus_sessions d)) (user_stats d) (schedules d),
   session).

Definition set_completed (end_time : datetime) (s : session_doc) : session_doc :=
  mk_session (s_id s) (s_userId s) (startTime s) (Some end_time) (duration s)
             true (quote s) (s_createdAt s).

(** The streak of the update branch. *)
Definition next_streak (stats : stats_doc) (end_time : datetime) : Z :=
  let current_streak := default 0 (currentStreak stats) in
  match lastSessionDate stats with
  | Some last_session_date =>
      let days_diff := date_diff_days end_time last_session_date in
      if days_diff =? 0 then default 1 (currentStreak stats)
      else if days_diff =? 1 then current_streak + 1
      else 1
  | None => 1
  end.

(** [weekly_data[day_of_week] += actual_duration]; [None] is the
    [IndexError] of a list too short. *)
Definition add_at (weekly_data : list float) (day_of_week : Z) (x : float)
    : option (list float) :=
  let i := Z.to_nat day_of_week in
  match weekly_data !! i with
  | Some w => Some (<[i := (w + x)%float]> weekly_data)
  | None => None
  end.

(** The [$set] of the update branch. *)
Definition set_stats (total : float) (count streak : Z) (last : datetime)
    (weekly : list float) (s : stats_doc) : stats_doc :=
  mk_stats (st_id s) (userId s) total count (Some streak) (Some last) (Some weekly).

(** [POST /sessions/complete]; [now] is [datetime.utcnow()] and [new_id]
    the identifier given to a statistics document if one is inserted. *)
Definition complete_session (d : db) (sessionId userId : string)
    (now : datetime) (new_id : ObjectId) : db * result float :=
  match ObjectId_of_str sessionId with
  | None => (d, Err InvalidId)
  | Some oid =>
    match find_one (by_session_id oid) (focus_sessions d) with
    | None => (d, Err (NotFound "Session not found"))
    | Some session =>
      let end_time := now in
      let sessions' :=
        update_one (by_session_id oid) (set_completed end_time) (focus_sessions d) in
      let d1 := mk_db sessions' (user_stats d) (schedules d) in
      let start_time := startTime session in
      let actual := actual_duration start_time end_time in
      match find_one (by_userId userId) (user_stats d1) with
      | None =>
          match add_at zeros7 (weekday end_time) actual with
          | None => (d1, Err IndexError)
          | Some weekly =>
              let stats :=
                mk_stats new_id userId actual 1 (Some 1) (Some end_time) (Some weekly) in
              (mk_db sessions' (insert_one stats (user_stats d1)) (schedules d1),
               Ok actual)
          end
      | Some stats =>
          let new_total_hours := (totalHours stats + actual)%float in
          let new_sessions_count := sessionsCount stats + 1 in
          let current_streak := next_streak stats end_time in
          match add_at (default zeros7 (weeklyData stats)) (weekday end_time) actual with
          | None => (d1, Err IndexError)
          | Some weekly_data =>
              (mk_db sessions'
                 (update_one (by_userId userId)
                    (set_stats new_total_hours new_sessions_count current_streak
                       end_time weekly_data)
                    (user_stats d1))
                 (schedules d1),
               Ok actual)
          end
      end
    end
  end.

(** What [GET /stats] returns: the stored document with its [_id] as a
    string, or the fields of a fresh [UserStats], which has no [_id]. *)
Record stats_response := mk_stats_response {
  r_id : option string;
  r_userId : string;
  r_totalHours : float;
  r_sessionsCount : Z;
  r_currentStreak : option Z;
  r_lastSessionDate : option datetime;
  r_weeklyData : option (list float)
}.

(** [UserStats(userId=userId).dict()] *)
Definition default_stats (userId : string) : stats_response :=
  mk_stats_response None userId 0%float 0 (Some 0) None (Some zeros7).

(** [GET /stats] *)
Definition get_stats (d : db) (u : string) : db * stats_response :=
  match find_one (by_userId u) (user_stats d) with
  | None => (d, default_stats u)
  | Some stats =>
      (d, mk_stats_response (Some (str_of_ObjectId (st_id stats))) (userId stats)
            (totalHours stats) (sessionsCount stats) (currentStreak stats)
            (lastSessionDate stats) (weeklyData stats))
  end.

(** [POST /schedules] *)
Definition create_schedule (d : db) (userId time : string) (days : list string)
    (name : string) (created : datetime) (new_id : ObjectId) : db * schedule_doc :=
  let schedule := mk_schedule new_id userId time days (Some true) name created in
  (mk_db (focus_sessions d) (user_stats d) (insert_one schedule (schedules d)),
   schedule).

(** A schedule as a response carries its [_id] as a string. *)
Definition schedule_response : Type := string * schedule_doc.

Definition render_schedule (s : schedule_doc) : schedule_response :=
  (str_of_ObjectId (sc_id s), s).

(** [GET /schedules] *)
Definition get_schedules (d : db) (u : string) : db * list schedule_response :=
  (d, render_schedule <$> find_to_list (by_schedule_user u) 100 (schedules d)).

Definition set_enabled (b : bool) (s : schedule_doc) : schedule_doc :=
  mk_schedule (sc_id s) (sc_userId s) (time s) (days s) (Some b) (name s)
              (sc_createdAt s).

(** [PATCH /schedules/{schedule_id}/toggle] *)
Definition toggle_schedule (d : db) (schedule_id : string) : db * result bool :=
  match ObjectId_of_str schedule_id with
  | None => (d, Err InvalidId)
  | Some oid =>
    match find_one (by_schedule_id oid) (schedules d) with
    | None => (d, Err (NotFound "Schedule not found"))
    | Some schedule =>
        let new_status := negb (default true (enabled schedule)) in
        (mk_db (focus_sessions d) (user_stats d)
           (update_one (by_schedule_id oid) (set_enabled new_status) (schedules d)),
         Ok new_status)
    end
  end.

End Server.
Export Server.

(** ** Sequences of completions *)

Module Runs.

(** One [POST /sessions/complete] request with what it reads from its
    environment. *)
Record completion := mk_completion {
  c_sessionId : string;
  c_userId : string;
  c_now : datetime;
  c_new_id : ObjectId
}.

Definition complete (d : db) (c : completion) : db * result float :=
  complete_session d (c_sessionId c) (c_userId c) (c_now c) (c_new_id c).

(** The store after the requests [cs], served one after the other. *)
Definition run (d : db) (cs : list completion) : db :=
  fold_left (fun d c => (complete d c).1) cs d.

(** The completions of [cs] that succeed for user [u], in order: when each
    was recorded and the duration it returned. *)
Fixpoint credited (u : string) (d : db) (cs : list completion)
    : list (datetime * float) :=
  match cs with
  | [] => []
  | c :: cs' =>
      let r := complete d c in
      match r.2 with
      | Ok h =>
          if bool_decide (c_userId c = u)
          then (c_now c, h) :: credited u r.1 cs'
          else credited u r.1 cs'
      | Err _ => credited u r.1 cs'
      end
  end.

(** The durations credited to [u]. *)
Definition hours (u : string) (d : db) (cs : list completion) : list float :=
  (credited u d cs).*2.

(** The durations credited to [u] on weekday [k]. *)
Definition hours_on (k : Z) (u : string) (d : db) (cs : list completion)
    : list float :=
  (List.filter (fun e => weekday e.1 =? k) (credited u d cs)).*2.

(** Of the durations [hs] of the requests [cs], those of the requests
    recorded on weekday [k]. *)
Definition on_weekday (k : Z) (cs : list completion) (hs : list float)
    : list float :=
  (List.filter (fun e => weekday e.1 =? k) (zip (c_now <$> cs) hs)).*2.

(** The stored statistics of [u]. *)
Definition stats_of (d : db) (u : string) : option stats_doc :=
  find_one (by_userId u) (user_stats d).

(** The stored session a request's [sessionId] resolves to. *)
Definition session_of (d : db) (sessionId : string) : option session_doc :=
  match ObjectId_of_str sessionId with
  | Some oid => find_one (by_session_id oid) (focus_sessions d)
  | None => None
  end.

(** The stored schedule a request's [schedule_id] resolves to. *)
Definition schedule_of (d : db) (schedule_id : string) : option schedule_doc :=
  match ObjectId_of_str schedule_id with
  | Some oid => find_one (by_schedule_id oid) (schedules d)
  | None => None
  end.

(** The statistics document the insert branch writes. *)
Definition first_stats (u : string) (now : datetime) (nid : ObjectId)
    (h : float) (w : list float) : stats_doc :=
  mk_stats nid u h 1 (Some 1) (Some now) (Some w).

(** The update branch: the new values, computed from the document [st] that
    was read, set on the document [s] that is updated. *)
Definition next_stats (st : stats_doc) (now : datetime) (h : float)
    (w : list float) (s : stats_doc) : stats_doc :=
  set_stats (totalHours st + h)%float (sessionsCount st + 1)
            (next_streak st now) now w s.

(** The stored statistics of [u], if any, hold a weekly table of seven
    entries (or none, which the handler reads as seven zeros). *)
Definition week_shaped (d : db) (u : string) : Prop :=
  match stats_of d u with
  | Some st => length (default zeros7 (weeklyData st)) = 7%nat
  | None => True
  end.

(** The duration a request would return, from the session its [sessionId]
    resolves to: the hours from the stored start to the request's time. *)
Definition elapsed (d : db) (c : completion) : option float :=
  (fun s => actual_duration (startTime s) (c_now c))
    <$> session_of d (c_sessionId c).

End Runs.
Export Runs.

(** ** Sample data *)

Module Samples.

Definition at_hour (y m d h : Z) : datetime := mk_datetime y m d h 0 0 0.

(** Monday 1, Tuesday 2 and Thursday 4 January 2024. *)
Definition mon10 : datetime := at_hour 2024 1 1 10.
Definition mon12 : datetime := at_hour 2024 1 1 12.
Definition mon15 : datetime := at_hour 2024 1 1 15.
Definition tue10 : datetime := at_hour 2024 1 2 10.
Definition tue11 : datetime := at_hour 2024 1 2 11.
Definition thu10 : datetime := at_hour 2024 1 4 10.
Definition thu13 : datetime := at_hour 2024 1 4 13.

Definition oid (n : N) : ObjectId := [0; 0; 0; 0; 0; 0; 0; 0; 0; 0; 0; n]%N.
Definition sid1 : string := "000000000000000000000001".
Definition sid2 : string := "000000000000000000000002".
Definition sid3 : string := "000000000000000000000003".
Definition sid9 : string := "000000000000000000000009".

(** Three sessions of user [alice], started and none completed. *)
Definition db_started : db :=
  let d1 := (start_session empty_db "alice" 120 mon10 mon10 "q" (oid 1)).1 in
  let d2 := (start_session d1 "alice" 60 tue10 tue10 "q" (oid 2)).1 in
  (start_session d2 "alice" 180 thu10 thu10 "q" (oid 3)).1.

Definition first_done : completion := mk_completion sid1 "alice" mon12 (oid 101).
Definition second_done : completion := mk_completion sid2 "alice" tue11 (oid 102).
Definition third_done : completion := mk_completion sid3 "alice" thu13 (oid 103).

Definition db_monday : db := run db_started [first_done].
Definition db_tuesday : db := run db_started [first_done; second_done].

(** A statistics document that lacks [lastSessionDate]; the handlers never
    write one. *)
Definition undated_stats : stats_doc :=
  mk_stats (oid 200) "bob" 1.5%float 2 (Some 4) None (Some zeros7).

Definition db_undated : db :=
  mk_db (focus_sessions db_started) [undated_stats] [].

Definition undated_done : completion :=
  mk_completion sid1 "bob" mon12 (oid 201).

Definition db_undated_done : db := run db_undated [undated_done].

(** The statistics of [alice] on Monday evening. *)
Definition stats_monday : stats_doc :=
  first_stats "alice" mon12 (oid 101) 2%float (<[0%nat := 2%float]> zeros7).

Definition db_thursday : db :=
  run db_started [first_done; second_done; third_done].

(** The statistics of [alice] on Thursday evening. *)
Definition stats_thursday : stats_doc :=
  mk_stats (oid 101) "alice" 6%float 3 (Some 1) (Some thu13)
    (Some [2; 1; 0; 3; 0; 0; 0]%float).

(** A store of 101 schedules, all of [alice]. *)
Definition add_schedule (d : db) (n : nat) : db :=
  (create_schedule d "alice" "07:00" ["Mon"] "wake" mon10 (oid (N.of_nat n))).1.

Definition db_schedules_101 : db := fold_left add_schedule (seq 1 101) empty_db.

(** The last of them. *)
Definition schedule_101 : schedule_doc :=
  mk_schedule (oid 101) "alice" "07:00" ["Mon"] (Some true) "wake" mon10.

(** A store of one schedule. *)
Definition db_one_schedule : db := add_schedule empty_db 1.

Definition schedule_1 : schedule_doc :=
  mk_schedule (oid 1) "alice" "07:00" ["Mon"] (Some true) "wake" mon10.

(** The first session as stored at its start. *)
Definition session1 : session_doc :=
  mk_session (oid 1) "alice" mon10 None 120 false "q" mon10.

End Samples.

(** ** The other handlers *)

Module Others.

(** The list the quotes are drawn from. *)
Definition MOTIVATIONAL_QUOTES : list string :=
  [ "Stay focused, be present 🌱";
    "Your focus determines your reality ✨";
    "One step at a time, one breath at a time 🧘";
    "The secret of change is to focus all your energy not on fighting the old, but on building the new 🌟";
    "Concentrate all your thoughts upon the work at hand 🎯";
    "Focus is a matter of deciding what things you're not going to do 💡";
    "Where focus goes, energy flows 🔥";
    "The successful warrior is the average person, with laser-like focus 🗡️";
    "Stay present. Stay focused. Stay calm 🌊";
    "Deep work leads to deep rewards 📚" ].

(** [random.choice(seq)] is [seq[k]] for its draw [k], which is below
    [len(seq)]; [None] stands for no draw at all. *)
Definition choice {A : Type} (seq : list A) (k : nat) : option A := seq !! k.

(** [GET /quotes] with the draw [k]. *)
Definition get_random_quote (k : nat) : option string :=
  choice MOTIVATIONAL_QUOTES k.

(** A datetime as the store orders it: the microseconds since the start of
    day 0. *)
Definition timestamp (t : datetime) : Z :=
  (toordinal t * 86400 + seconds_of_day t) * 1000000 + microsecond t.

Section Cursor.
Context {A : Type}.

(** [sort(key, -1)]: the greatest key first.  The store leaves the order of
    documents of equal keys open; they keep their storage order here. *)
Fixpoint insert_desc (key : A -> Z) (x : A) (l : list A) : list A :=
  match l with
  | [] => [x]
  | y :: l' => if key y <? key x then x :: l else y :: insert_desc key x l'
  end.

Definition sort_desc (key : A -> Z) (l : list A) : list A :=
  foldr (insert_desc key) [] l.

(** [cursor.limit(n)]: 0 is no limit, and a negative [n] limits as its
    absolute value does. *)
Definition cursor_limit (n : Z) (l : list A) : list A :=
  if n =? 0 then l else take (Z.abs_nat n) l.

(** [to_list(n)]: at most [n] documents; [None] is the [ValueError] of a
    negative length. *)
Definition to_list (n : Z) (l : list A) : option (list A) :=
  if n <? 0 then None else Some (take (Z.to_nat n) l).

(** [delete_one]: the first match leaves; with it, [deleted_count]. *)
Fixpoint delete_one (p : A -> bool) (l : list A) : nat * list A :=
  match l with
  | [] => (0%nat, [])
  | x :: l' =>
      if p x then (1%nat, l')
      else let r := delete_one p l' in (r.1, x :: r.2)
  end.
End Cursor.

Definition by_session_user (u : string) (s : session_doc) : bool :=
  bool_decide (s_userId s = u).

(** A session as a response carries its [_id] as a string. *)
Definition session_response : Type := string * session_doc.

Definition render_session (s : session_doc) : session_response :=
  (str_of_ObjectId (s_id s), s).

(** [GET /sessions/history]; [None] is the uncaught [ValueError] of
    [to_list] (a 500 response). *)
Definition get_session_history (d : db) (userId : string) (limit : Z)
    : db * option (list session_response) :=
  let found := List.filter (by_session_user userId) (focus_sessions d) in
  let sorted := sort_desc (fun s => timestamp (s_createdAt s)) found in
  (d, match to_list limit (cursor_limit limit sorted) with
      | Some sessions => Some (render_session <$> sessions)
      | None => None
      end).

(** [DELETE /schedules/{schedule_id}] *)
Definition delete_schedule (d : db) (schedule_id : string) : db * result string :=
  match ObjectId_of_str schedule_id with
  | None => (d, Err InvalidId)
  | Some oid =>
      let r := delete_one (by_schedule_id oid) (schedules d) in
      let d' := mk_db (focus_sessions d) (user_stats d) r.2 in
      if (r.1 =? 0)%nat then (d', Err (NotFound "Schedule not found"))
      else (d', Ok "Schedule deleted")
  end.

End Others.
Export Others.

(** ** The stores the handlers reach *)

Module Reach.

(** An identifier as the driver generates it: twelve bytes. *)
Definition valid_oid (o : ObjectId) : Prop :=
  length o = 12%nat /\ Forall (fun b => (b < 256)%N) o.

(** The stores that requests lead to from the empty one.  An inserted
    document gets an identifier that is valid and new to its collection,
    and a quote is a draw from the list; the handlers that only read are
    left out, as they return the store they got. *)
Inductive reachable : db -> Prop :=
| reach_empty : reachable empty_db
| reach_start d userId duration now created k quote new_id :
    reachable d ->
    get_random_quote k = Some quote ->
    valid_oid new_id -> new_id ∉ (s_id <$> focus_sessions d) ->
    reachable (start_session d userId duration now created quote new_id).1
| reach_complete d sessionId userId now new_id :
    reachable d ->
    valid_oid new_id -> new_id ∉ (st_id <$> user_stats d) ->
    reachable (complete_session d sessionId userId now new_id).1
| reach_create d userId time days name created new_id :
    reachable d ->
    valid_oid new_id -> new_id ∉ (sc_id <$> schedules d) ->
    reachable (create_schedule d userId time days name created new_id).1
| reach_delete d schedule_id :
    reachable d -> reachable (delete_schedule d schedule_id).1
| reach_toggle d schedule_id :
    reachable d -> reachable (toggle_schedule d schedule_id).1.

(** What every stored statistics document satisfies. *)
Definition stats_ok (st : stats_doc) : Prop :=
  (exists w s last,
     weeklyData st = Some w /\ length w = 7%nat /\
     currentStreak st = Some s /\ 1 <= s <= sessionsCount st /\
     lastSessionDate st = Some last) /\
  valid_oid (st_id st).

(** What every stored session satisfies. *)
Definition session_ok (s : session_doc) : Prop :=
  (completed s = true <-> is_Some (endTime s)) /\
  quote s ∈ MOTIVATIONAL_QUOTES /\
  valid_oid (s_id s).

(** What every stored schedule satisfies. *)
Definition schedule_ok (s : schedule_doc) : Prop :=
  is_Some (enabled s) /\ valid_oid (sc_id s).

Record db_ok (d : db) : Prop := mk_db_ok {
  ok_sessions : Forall session_ok (focus_sessions d);
  ok_session_ids : NoDup (s_id <$> focus_sessions d);
  ok_stats : Forall stats_ok (user_stats d);
  ok_stats_users : NoDup (userId <$> user_stats d);
  ok_stats_ids : NoDup (st_id <$> user_stats d);
  ok_schedules : Forall schedule_ok (schedules d);
  ok_schedule_ids : NoDup (sc_id <$> schedules d)
}.

End Reach.
Export Reach.

(** ** Notions for the further properties *)

Module Notions.

(** What of a session is set when it starts. *)
Definition session_core (s : session_doc)
    : ObjectId * string * datetime * Z * string * datetime :=
  (s_id s, s_userId s, startTime s, duration s, quote s, s_createdAt s).

(** What of a schedule is set when it is created, but for the flag. *)
Definition schedule_core (s : schedule_doc)
    : ObjectId * string * string * list string * string * datetime :=
  (sc_id s, sc_userId s, time s, days s, name s, sc_createdAt s).

(** Each of the times [ts] is on the calendar day after the one before it,
    the first of them on the day after [last]. *)
Fixpoint consecutive_days (last : datetime) (ts : list datetime) : Prop :=
  match ts with
  | [] => True
  | t :: ts' => date_diff_days t last = 1 /\ consecutive_days t ts'
  end.

(** No element has a greater key than one before it. *)
Fixpoint descending {A : Type} (key : A -> Z) (l : list A) : Prop :=
  match l with
  | [] => True
  | x :: l' => Forall (fun y => key y <= key x) l' /\ descending key l'
  end.

(** The sessions [l] are in the order of their creation, newest first. *)
Definition newest_first (l : list session_doc) : Prop :=
  forall i j a b,
    (i < j)%nat -> l !! i = Some a -> l !! j = Some b ->
    timestamp (s_createdAt b) <= timestamp (s_createdAt a).

End Notions.
Export Notions.

(** ** More sample data *)

Module Samples2.

Definition quote7 : string := "Where focus goes, energy flows 🔥".

(** The first session, as started in the empty store. *)
Definition started1 : db * session_doc :=
  start_session empty_db "alice" 120 Samples.mon10 Samples.mon10 quote7
    (Samples.oid 1).

(** That session completed two hours later. *)
Definition db_done : db :=
  (complete_session started1.1 Samples.sid1 "alice" Samples.mon12
     (Samples.oid 101)).1.

(** The statistics that completion stored. *)
Definition stats_done : stats_doc :=
  mk_stats (Samples.oid 101) "alice" 2%float 1 (Some 1) (Some Samples.mon12)
    (Some [2; 0; 0; 0; 0; 0; 0]%float).

(** Statistics whose weekly table is too short for any weekday. *)
Definition short_stats : stats_doc :=
  mk_stats (Samples.oid 200) "bob" 1.5%float 2 (Some 1) (Some Samples.mon10)
    (Some []).

Definition db_short : db := mk_db (focus_sessions started1.1) [short_stats] [].

(** Statistics without a streak and without a weekly table. *)
Definition bare_stats : stats_doc :=
  mk_stats (Samples.oid 200) "bob" 1.5%float 2 None (Some Samples.mon10) None.

Definition db_bare : db := mk_db (focus_sessions started1.1) [bare_stats] [].

Definition db_bare_done : db :=
  (complete_session db_bare Samples.sid1 "bob" Samples.mon12 (Samples.oid 201)).1.

(** The session of [alice] completed in the name of [bob]. *)
Definition db_bob : db :=
  (complete_session started1.1 Samples.sid1 "bob" Samples.mon12
     (Samples.oid 201)).1.

End Samples2.

(** * Properties *)

(** ** Collections *)

Section CollectionFacts.
Context {A : Type}.
Implicit Types (p q : A -> bool) (f g : A -> A) (l : list A).

Lemma find_one_some p l x : find_one p l = Some x -> p x = true.
Proof.
  induction l as [|y l IH]; simpl; [done|].
  destruct (p y) eqn:E; [|done]. by intros [= <-].
Qed.

Lemma find_one_update_one p f l x :
  find_one p l = Some x -> p (f x) = true ->
  find_one p (update_one p f l) = Some (f x).
Proof.
  induction l as [|y l IH]; simpl; [done|].
  destruct (p y) eqn:E.
  - intros [= <-] Hf. simpl. by rewrite Hf.
  - intros Hx Hf. simpl. rewrite E. by apply IH.
Qed.

Lemma find_one_update_one_frame p q f l :
  (forall x, p x = true -> q x = false) ->
  (forall x, p x = true -> q (f x) = false) ->
  find_one q (update_one p f l) = find_one q l.
Proof.
  intros Hpq Hpf. induction l as [|y l IH]; simpl; [done|].
  destruct (p y) eqn:E; simpl.
  - by rewrite (Hpq y E), (Hpf y E).
  - by rewrite IH.
Qed.

Lemma find_one_insert_one p l x :
  find_one p (insert_one x l) =
  match find_one p l with
  | Some y => Some y
  | None => if p x then Some x else None
  end.
Proof.
  unfold insert_one. induction l as [|y l IH]; simpl; [done|].
  by destruct (p y).
Qed.

Lemma update_one_none p f l : find_one p l = None -> update_one p f l = l.
Proof.
  induction l as [|y l IH]; simpl; [done|].
  destruct (p y); [done|]. intros H. by rewrite IH.
Qed.

Lemma update_one_twice p f g l :
  (forall x, p x = true -> p (g x) = true) ->
  update_one p f (update_one p g l) = update_one p (fun x => f (g x)) l.
Proof.
  intros Hg. induction l as [|y l IH]; simpl; [done|].
  destruct (p y) eqn:E; simpl.
  - by rewrite (Hg y E).
  - by rewrite E, IH.
Qed.

Lemma update_one_id p f l x :
  find_one p l = Some x -> f x = x -> update_one p f l = l.
Proof.
  induction l as [|y l IH]; simpl; [done|].
  destruct (p y) eqn:E.
  - intros [= <-] Hf. by rewrite Hf.
  - intros Hx Hf. by rewrite IH.
Qed.

End CollectionFacts.

(** ** Weekdays and the weekly table *)

Lemma weekday_range t : 0 <= weekday t < 7.
Proof. unfold weekday. apply Z.mod_pos_bound. lia. Qed.

Lemma add_at_some (w : list float) k x :
  0 <= k -> (Z.to_nat k < length w)%nat ->
  exists y, w !! Z.to_nat k = Some y /\
            add_at w k x = Some (<[Z.to_nat k := (y + x)%float]> w).
Proof.
  intros _ Hk. destruct (lookup_lt_is_Some_2 w (Z.to_nat k) Hk) as [y Hy].
  exists y. split; [done|]. unfold add_at. by rewrite Hy.
Qed.

Lemma add_at_inv (w w' : list float) k x :
  add_at w k x = Some w' ->
  exists y, w !! Z.to_nat k = Some y /\ w' = <[Z.to_nat k := (y + x)%float]> w.
Proof.
  unfold add_at. destruct (w !! Z.to_nat k) as [y|] eqn:E; [|done].
  intros [= <-]. by exists y.
Qed.

Lemma add_at_length (w w' : list float) k x :
  add_at w k x = Some w' -> length w' = length w.
Proof.
  intros H. destruct (add_at_inv _ _ _ _ H) as (y & _ & ->).
  by rewrite length_insert.
Qed.

Lemma add_at_week (w : list float) t x :
  length w = 7%nat -> is_Some (add_at w (weekday t) x).
Proof.
  intros Hw. pose proof (weekday_range t) as Hr.
  destruct (add_at_some w (weekday t) x) as (y & _ & ->); [lia|lia|done].
Qed.

(** ** What a completion does to the store *)

Lemma complete_session_ok d sid u now nid d' h :
  complete_session d sid u now nid = (d', Ok h) ->
  exists oid session,
    ObjectId_of_str sid = Some oid /\
    find_one (by_session_id oid) (focus_sessions d) = Some session /\
    h = actual_duration (startTime session) now /\
    focus_sessions d' =
      update_one (by_session_id oid) (set_completed now) (focus_sessions d) /\
    schedules d' = schedules d /\
    match stats_of d u with
    | None => exists w,
        add_at zeros7 (weekday now) h = Some w /\
        user_stats d' = insert_one (first_stats u now nid h w) (user_stats d)
    | Some st => exists w,
        add_at (default zeros7 (weeklyData st)) (weekday now) h = Some w /\
        user_stats d' =
          update_one (by_userId u) (next_stats st now h w) (user_stats d)
    end.
Proof.
  unfold complete_session, stats_of.
  destruct (ObjectId_of_str sid) as [oid|]; [|done].
  destruct (find_one (by_session_id oid) (focus_sessions d)) as [session|] eqn:Hs;
    [|done].
  simpl. destruct (find_one (by_userId u) (user_stats d)) as [st|] eqn:Hst.
  - destruct (add_at _ _ _) as [w|] eqn:Hw; [|done].
    intros [= <- <-]. exists oid, session. repeat split; try done.
    exists w. split; [done|]. simpl. done.
  - destruct (add_at _ _ _) as [w|] eqn:Hw; [|done].
    intros [= <- <-]. exists oid, session. repeat split; try done.
    exists w. by split.
Qed.

Lemma complete_session_err d sid u now nid d' e :
  complete_session d sid u now nid = (d', Err e) ->
  user_stats d' = user_stats d /\ schedules d' = schedules d /\
  (e <> IndexError -> d' = d).
Proof.
  unfold complete_session.
  destruct (ObjectId_of_str sid) as [oid|]; [|by intros [= <- <-]].
  destruct (find_one (by_session_id oid) (focus_sessions d)) as [session|];
    [|by intros [= <- <-]].
  simpl. destruct (find_one (by_userId u) (user_stats d)) as [st|].
  - destruct (add_at _ _ _); [done|]. by intros [= <- <-].
  - destruct (add_at _ _ _); [done|]. by intros [= <- <-].
Qed.

Lemma next_stats_userId st now h w s : userId (next_stats st now h w s) = userId s.
Proof. done. Qed.

(** The statistics of [u] after a completion credited to [u]. *)
Lemma stats_of_complete_same d sid u now nid d' h :
  complete_session d sid u now nid = (d', Ok h) ->
  match stats_of d u with
  | None => exists w,
      add_at zeros7 (weekday now) h = Some w /\
      stats_of d' u = Some (first_stats u now nid h w)
  | Some st => exists w,
      add_at (default zeros7 (weeklyData st)) (weekday now) h = Some w /\
      stats_of d' u = Some (next_stats st now h w st)
  end.
Proof.
  intros H. destruct (complete_session_ok _ _ _ _ _ _ _ H)
    as (oid & session & _ & _ & _ & _ & _ & Hst).
  destruct (stats_of d u) as [st|] eqn:E.
  - destruct Hst as (w & Hw & Hu). exists w. split; [done|].
    unfold stats_of in *. rewrite Hu.
    apply (find_one_update_one _ (next_stats st now h w)); [done|].
    simpl. apply (find_one_some _ _ _ E).
  - destruct Hst as (w & Hw & Hu). exists w. split; [done|].
    unfold stats_of in *. rewrite Hu, find_one_insert_one, E.
    unfold by_userId. simpl. by rewrite bool_decide_eq_true_2.
Qed.

(** A completion leaves the statistics of every other user alone, and a
    failed one those of every user. *)
Lemma stats_of_complete_other d sid u now nid v :
  let r := complete_session d sid u now nid in
  (u <> v \/ exists e, r.2 = Err e) -> stats_of r.1 v = stats_of d v.
Proof.
  intros r Hv. destruct r as [d' [h|e]] eqn:Hr; simpl in *.
  - destruct Hv as [Hv|[e [=]]].
    destruct (complete_session_ok _ _ _ _ _ _ _ Hr)
      as (oid & session & _ & _ & _ & _ & _ & Hst).
    unfold stats_of in *.
    destruct (find_one (by_userId u) (user_stats d)) as [st|] eqn:E.
    + destruct Hst as (w & _ & ->).
      apply find_one_update_one_frame; intros x Hx;
        unfold by_userId in *; simpl;
        apply bool_decide_eq_true_1 in Hx; apply bool_decide_eq_false_2; congruence.
    + destruct Hst as (w & _ & ->). rewrite find_one_insert_one.
      destruct (find_one (by_userId v) (user_stats d)); [done|].
      unfold by_userId. simpl. by rewrite bool_decide_eq_false_2.
  - destruct (complete_session_err _ _ _ _ _ _ _ Hr) as (Hu & _).
    unfold stats_of. by rewrite Hu.
Qed.

(** ** Floats: adding a duration to zero *)

Section FloatFacts.

Lemma iter_shr_1_nonneg p mrs :
  0 <= shr_m mrs -> 0 <= shr_m (SpecFloat.iter_pos shr_1 p mrs).
Proof.
  assert (H1 : forall r, 0 <= shr_m r -> 0 <= shr_m (shr_1 r)).
  { intros [m r s]. simpl. destruct m as [|[q|q|]|q]; simpl; lia. }
  revert mrs. induction p as [p IH|p IH|]; intros mrs H; simpl; auto.
Qed.

Lemma shr_fexp_nonneg m e l :
  0 <= m -> 0 <= shr_m (shr_fexp prec emax m e l).1.
Proof.
  intros H. unfold shr_fexp, shr.
  assert (H0 : 0 <= shr_m (shr_record_of_loc m l))
    by (destruct l as [|[]]; simpl; lia).
  destruct (fexp prec emax (Zdigits2 m + e) - e); simpl; auto.
  by apply iter_shr_1_nonneg.
Qed.

Lemma round_nearest_even_nonneg m l : 0 <= m -> 0 <= round_nearest_even m l.
Proof.
  intros H. destruct l as [|[]]; simpl; try lia.
  destruct (IntDef.Z.even m); lia.
Qed.

(** Rounding a non-negative mantissa gives a number of the sign asked
    for. *)
Lemma binary_round_aux_shape sx mx ex lx :
  0 <= mx ->
  match binary_round_aux prec emax sx mx ex lx with
  | S754_zero s | S754_infinity s | S754_finite s _ _ => s = sx
  | S754_nan => False
  end.
Proof.
  intros H. unfold binary_round_aux.
  pose proof (shr_fexp_nonneg mx ex lx H) as H1.
  destruct (shr_fexp prec emax mx ex lx) as [mrs' e']. simpl in H1.
  pose proof (shr_fexp_nonneg _ e' loc_Exact
                (round_nearest_even_nonneg _ (loc_of_shr_record mrs') H1)) as H2.
  destruct (shr_fexp prec emax _ e' loc_Exact) as [mrs'' e'']. simpl in H2.
  destruct (shr_m mrs''); [done| |lia].
  by destruct (_ <=? _).
Qed.

Lemma SFdiv_core_nonneg mx ex my ey :
  0 <= (SFdiv_core_binary prec emax (Z.pos mx) ex (Z.pos my) ey).1.1.
Proof.
  unfold SFdiv_core_binary.
  set (m' := match _ with Z.pos _ => _ | _ => _ end).
  assert (0 <= m') as Hm.
  { subst m'. destruct (_ - _ - _)%Z; try lia. rewrite Z.shiftl_mul_pow2; lia. }
  pose proof (Z_div_mod m' (Z.pos my) ltac:(lia)) as Hd.
  destruct (Z.div_eucl _ _) as [q r]. simpl. nia.
Qed.

Lemma SFdiv_is_number x my ey :
  is_number x -> is_number (SFdiv prec emax x (S754_finite false my ey)).
Proof.
  intros Hx. destruct x as [sx|sx| |sx mx ex]; try done.
  unfold SFdiv. pose proof (SFdiv_core_nonneg mx ex my ey) as Hq.
  destruct (SFdiv_core_binary _ _ _ _ _ _) as [[mz ez] lz]. simpl in Hq.
  pose proof (binary_round_aux_shape (xorb sx false) mz ez lz Hq) as Hr.
  unfold is_number. by destruct (binary_round_aux _ _ _ _ _ _).
Qed.

Lemma SFdiv_sign_clear x my ey :
  sign_clear x -> sign_clear (SFdiv prec emax x (S754_finite false my ey)).
Proof.
  intros Hx. destruct x as [sx|sx| |sx mx ex]; simpl in Hx; subst; try done.
  unfold SFdiv. pose proof (SFdiv_core_nonneg mx ex my ey) as Hq.
  destruct (SFdiv_core_binary _ _ _ _ _ _) as [[mz ez] lz]. simpl in Hq.
  pose proof (binary_round_aux_shape (xorb false false) mz ez lz Hq) as Hr.
  by destruct (binary_round_aux _ _ _ _ _ _).
Qed.

Lemma of_uint63_shape n :
  is_number (Prim2SF (of_uint63 n)) /\ sign_clear (Prim2SF (of_uint63 n)).
Proof.
  rewrite of_uint63_spec. unfold binary_normalize.
  pose proof (Uint63.to_Z_bounded n).
  destruct (Uint63Axioms.to_Z n) as [|m|m]; [done| |lia].
  unfold binary_round. destruct (shl_align _ _ _) as [mz ez].
  pose proof (binary_round_aux_shape false (Z.pos mz) ez loc_Exact) as Hr.
  specialize (Hr ltac:(lia)). unfold is_number.
  by destruct (binary_round_aux _ _ _ _ _ _).
Qed.

Lemma float_of_int_is_number z : is_number (Prim2SF (float_of_int z)).
Proof.
  destruct z; simpl; [done|apply of_uint63_shape|].
  rewrite opp_spec.
  destruct (of_uint63_shape (Uint63.of_Z (Z.pos p))) as [H _].
  unfold is_number in *. by destruct (Prim2SF _).
Qed.

Lemma float_of_int_sign_clear z : 0 <= z -> sign_clear (Prim2SF (float_of_int z)).
Proof. destruct z; simpl; [done| |lia]. intros _. apply of_uint63_shape. Qed.

Lemma Prim2SF_3600 : Prim2SF 3600 = S754_finite false 7916483719987200 (-41).
Proof. reflexivity. Qed.

Lemma Prim2SF_1000000 :
  Prim2SF (float_of_int 1000000) = S754_finite false 8589934592000000 (-33).
Proof. vm_compute. reflexivity. Qed.

Lemma actual_duration_is_number a b : is_number (Prim2SF (actual_duration a b)).
Proof.
  unfold actual_duration, total_seconds.
  rewrite !div_spec, Prim2SF_3600, Prim2SF_1000000.
  apply SFdiv_is_number, SFdiv_is_number, float_of_int_is_number.
Qed.

Lemma actual_duration_sign_clear a b :
  0 <= sub_microseconds b a -> sign_clear (Prim2SF (actual_duration a b)).
Proof.
  intros H. unfold actual_duration, total_seconds.
  rewrite !div_spec, Prim2SF_3600, Prim2SF_1000000.
  by apply SFdiv_sign_clear, SFdiv_sign_clear, float_of_int_sign_clear.
Qed.

Lemma SFeqb_refl x : is_number x -> SFeqb x x = true.
Proof.
  destruct x as [s|s| |s m e]; try done; unfold SFeqb; simpl.
  - by destruct s.
  - rewrite Z.compare_refl, Pos.compare_cont_refl. by destruct s.
Qed.

(** [0.0 + x == x] for every number [x]. *)
Lemma add_zero_l_eq x : is_number (Prim2SF x) -> float_eq (0 + x)%float x.
Proof.
  intros H. unfold float_eq. rewrite FloatAxioms.eqb_spec, add_spec.
  change (Prim2SF 0) with (S754_zero false).
  destruct (Prim2SF x) as [s|s| |s m e] eqn:E; try done.
  - by destruct s.
  - unfold SF64add. simpl. by apply SFeqb_refl.
  - unfold SF64add. simpl. by apply SFeqb_refl.
Qed.

(** [0.0 + x] is [x] itself when [x] is not negative. *)
Lemma add_zero_l x : sign_clear (Prim2SF x) -> (0 + x)%float = x.
Proof.
  intros H. apply Prim2SF_inj. rewrite add_spec.
  change (Prim2SF 0) with (S754_zero false).
  destruct (Prim2SF x) as [s|s| |s m e] eqn:E; try done.
  simpl in H. by subst.
Qed.

(** The sum of durations is the sum that starts from [0.0] when the first
    of them is not negative. *)
Lemma sum_hours_from_zero x l :
  sign_clear (Prim2SF x) -> sum_hours (x :: l) = float_sum 0 (x :: l).
Proof. intros H. unfold sum_hours, float_sum. simpl. by rewrite add_zero_l. Qed.

End FloatFacts.

(** ** Sessions across completions *)

Lemma session_of_some d sid s :
  session_of d sid = Some s ->
  exists o, ObjectId_of_str sid = Some o /\
            find_one (by_session_id o) (focus_sessions d) = Some s.
Proof.
  unfold session_of. destruct (ObjectId_of_str sid) as [o|]; [|done].
  intros H. by exists o.
Qed.

Lemma complete_session_ok_session d sid u now nid d' h :
  complete_session d sid u now nid = (d', Ok h) ->
  exists s, session_of d sid = Some s /\
            h = actual_duration (startTime s) now /\
            session_of d' sid = Some (set_completed now s).
Proof.
  intros H. destruct (complete_session_ok _ _ _ _ _ _ _ H)
    as (o & s & Ho & Hs & Hh & Hf & _).
  exists s. unfold session_of. rewrite Ho, Hf. repeat split; try done.
  apply find_one_update_one; [done|]. apply (find_one_some _ _ _ Hs).
Qed.

Lemma complete_session_succeeds d sid u now nid s :
  session_of d sid = Some s -> week_shaped d u ->
  exists d', complete_session d sid u now nid
             = (d', Ok (actual_duration (startTime s) now)).
Proof.
  intros Hs Hw. destruct (session_of_some _ _ _ Hs) as (o & Ho & Hf).
  unfold complete_session, week_shaped, stats_of in *. rewrite Ho, Hf. simpl.
  destruct (find_one (by_userId u) (user_stats d)) as [st|].
  - destruct (add_at_week (default zeros7 (weeklyData st)) now
                (actual_duration (startTime s) now) Hw) as [w ->]. by eexists.
  - destruct (add_at_week zeros7 now (actual_duration (startTime s) now) eq_refl)
      as [w ->]. by eexists.
Qed.

(** ** The streak *)

(** C1: a completion applied to stored statistics that hold a
    [lastSessionDate] leaves [currentStreak] unchanged when the calendar-day
    difference to that date is 0, adds one to it when the difference is 1,
    and resets it to 1 when the difference is greater than 1 or negative. *)
Theorem C1_streak_rule d sid u now nid d' h stats last prior :
  stats_of d u = Some stats ->
  lastSessionDate stats = Some last ->
  currentStreak stats = Some prior ->
  complete_session d sid u now nid = (d', Ok h) ->
  exists stats' new,
    stats_of d' u = Some stats' /\ currentStreak stats' = Some new /\
    let days_diff := date_diff_days now last in
    (days_diff = 0 -> new = prior) /\
    (days_diff = 1 -> new = prior + 1) /\
    (days_diff > 1 \/ days_diff < 0 -> new = 1).
Proof.
  intros Hst Hlast Hprior H.
  pose proof (stats_of_complete_same _ _ _ _ _ _ _ H) as Hs.
  rewrite Hst in Hs. destruct Hs as (w & _ & Hs).
  exists (next_stats stats now h w stats), (next_streak stats now).
  split; [done|]. split; [done|].
  unfold next_streak. rewrite Hlast, Hprior. simpl.
  repeat split; intros Hd.
  - by rewrite Hd.
  - by rewrite Hd.
  - destruct (Z.eqb_spec (date_diff_days now last) 0) as [E|_]; [lia|].
    destruct (Z.eqb_spec (date_diff_days now last) 1) as [E|_]; [lia|done].
Qed.

Lemma C1_streak_rule_witness :
  (stats_of Samples.db_monday "alice" = Some Samples.stats_monday /\
   lastSessionDate Samples.stats_monday = Some Samples.mon12 /\
   currentStreak Samples.stats_monday = Some 1 /\
   complete Samples.db_monday Samples.second_done
     = (Samples.db_tuesday, Ok 1%float)) /\
  exists stats' new,
    stats_of Samples.db_tuesday "alice" = Some stats' /\
    currentStreak stats' = Some new /\
    let days_diff := date_diff_days Samples.tue11 Samples.mon12 in
    (days_diff = 0 -> new = 1) /\
    (days_diff = 1 -> new = 1 + 1) /\
    (days_diff > 1 \/ days_diff < 0 -> new = 1).
Proof.
  split; [by repeat split|].
  apply (C1_streak_rule Samples.db_monday Samples.sid2 "alice" Samples.tue11
           (Samples.oid 102) Samples.db_tuesday 1%float Samples.stats_monday
           Samples.mon12 1); reflexivity.
Defined.

(** C10: a completion applied to stored statistics that lack
    [lastSessionDate] sets [currentStreak] to 1, adds the duration to
    [totalHours] and to the weekday's entry of [weeklyData], adds one to
    [sessionsCount] and sets [lastSessionDate] to the completion time. *)
Theorem C10_undated_stats d sid u now nid d' h stats :
  stats_of d u = Some stats ->
  lastSessionDate stats = None ->
  complete_session d sid u now nid = (d', Ok h) ->
  exists stats' y,
    stats_of d' u = Some stats' /\
    currentStreak stats' = Some 1 /\
    totalHours stats' = (totalHours stats + h)%float /\
    sessionsCount stats' = sessionsCount stats + 1 /\
    lastSessionDate stats' = Some now /\
    default zeros7 (weeklyData stats) !! Z.to_nat (weekday now) = Some y /\
    weeklyData stats' =
      Some (<[Z.to_nat (weekday now) := (y + h)%float]>
              (default zeros7 (weeklyData stats))).
Proof.
  intros Hst Hlast H.
  pose proof (stats_of_complete_same _ _ _ _ _ _ _ H) as Hs.
  rewrite Hst in Hs. destruct Hs as (w & Hw & Hs).
  destruct (add_at_inv _ _ _ _ Hw) as (y & Hy & ->).
  eexists _, y. split; [exact Hs|].
  unfold next_stats, next_streak. rewrite Hlast. by simpl.
Qed.

Lemma C10_undated_stats_witness :
  (stats_of Samples.db_undated "bob" = Some Samples.undated_stats /\
   lastSessionDate Samples.undated_stats = None /\
   complete Samples.db_undated Samples.undated_done
     = (Samples.db_undated_done, Ok 2%float)) /\
  exists stats' y,
    stats_of Samples.db_undated_done "bob" = Some stats' /\
    currentStreak stats' = Some 1 /\
    totalHours stats' = (1.5 + 2)%float /\
    sessionsCount stats' = 2 + 1 /\
    lastSessionDate stats' = Some Samples.mon12 /\
    zeros7 !! Z.to_nat (weekday Samples.mon12) = Some y /\
    weeklyData stats' =
      Some (<[Z.to_nat (weekday Samples.mon12) := (y + 2)%float]> zeros7).
Proof.
  split; [by repeat split|].
  apply (C10_undated_stats Samples.db_undated Samples.sid1 "bob" Samples.mon12
           (Samples.oid 201) Samples.db_undated_done 2%float
           Samples.undated_stats); reflexivity.
Defined.

(** ** The first completion of a user *)

Lemma zeros7_lookup (k : nat) (y : float) : zeros7 !! k = Some y -> y = 0%float.
Proof. unfold zeros7. intros H. by apply lookup_replicate in H as [-> _]. Qed.

(** C2: the completion of a stored session by a user without stored
    statistics succeeds and inserts one statistics document: [totalHours]
    is the elapsed duration in hours, [sessionsCount] and [currentStreak]
    are 1, [lastSessionDate] is the completion time, and [weeklyData] is
    seven entries, all [0.0] but the one of the completion's weekday, which
    holds the duration ([0.0 + h], which [==] the duration [h], and is [h]
    itself when the completion is not before the start). *)
Theorem C2_first_completion d sid u now nid session :
  session_of d sid = Some session ->
  stats_of d u = None ->
  let h := actual_duration (startTime session) now in
  exists d' w x,
    complete_session d sid u now nid = (d', Ok h) /\
    user_stats d' =
      user_stats d ++ [mk_stats nid u h 1 (Some 1) (Some now) (Some w)] /\
    stats_of d' u = Some (mk_stats nid u h 1 (Some 1) (Some now) (Some w)) /\
    length w = 7%nat /\
    w !! Z.to_nat (weekday now) = Some x /\
    float_eq x h /\
    (0 <= sub_microseconds now (startTime session) -> x = h) /\
    (forall k, (k < 7)%nat -> k <> Z.to_nat (weekday now) -> w !! k = Some 0%float).
Proof.
  intros Hs Hst h.
  destruct (complete_session_succeeds d sid u now nid session Hs) as [d' H].
  { unfold week_shaped. by rewrite Hst. }
  fold h in H.
  pose proof (stats_of_complete_same _ _ _ _ _ _ _ H) as Hsame.
  destruct (complete_session_ok _ _ _ _ _ _ _ H) as (_ & _ & _ & _ & _ & _ & _ & Hu).
  rewrite Hst in Hsame, Hu.
  destruct Hu as (w & Hw & Hu). destruct Hsame as (w' & Hw' & Hsame).
  assert (w' = w) as -> by congruence.
  destruct (add_at_inv _ _ _ _ Hw) as (y & Hy & ->).
  apply zeros7_lookup in Hy as ->.
  pose proof (weekday_range now) as Hr.
  exists d', (<[Z.to_nat (weekday now) := (0 + h)%float]> zeros7), (0 + h)%float.
  repeat split; try done.
  - by rewrite length_insert.
  - apply list_lookup_insert_eq. simpl. lia.
  - apply add_zero_l_eq, actual_duration_is_number.
  - intros Hpos. by apply add_zero_l, actual_duration_sign_clear.
  - intros k Hk Hne. rewrite list_lookup_insert_ne by done.
    apply lookup_replicate_2. lia.
Qed.

Lemma C2_first_completion_witness :
  (session_of Samples.db_started Samples.sid1 = Some Samples.session1 /\
   stats_of Samples.db_started "alice" = None) /\
  exists d' w x,
    complete_session Samples.db_started Samples.sid1 "alice" Samples.mon12
      (Samples.oid 101) = (d', Ok 2%float) /\
    user_stats d' =
      [] ++ [mk_stats (Samples.oid 101) "alice" 2%float 1 (Some 1)
               (Some Samples.mon12) (Some w)] /\
    stats_of d' "alice" =
      Some (mk_stats (Samples.oid 101) "alice" 2%float 1 (Some 1)
              (Some Samples.mon12) (Some w)) /\
    length w = 7%nat /\
    w !! 0%nat = Some x /\
    float_eq x 2%float /\
    (0 <= 7200000000 -> x = 2%float) /\
    (forall k, (k < 7)%nat -> k <> 0%nat -> w !! k = Some 0%float).
Proof.
  split; [by split|].
  exact (C2_first_completion Samples.db_started Samples.sid1 "alice"
           Samples.mon12 (Samples.oid 101) Samples.session1 eq_refl eq_refl).
Defined.

(** ** Unknown sessions *)

(** C5, as stated, fails: a [sessionId] that is not a valid [ObjectId]
    resolves to no session, and the request fails with [InvalidId], which
    nothing turns into the not-found response. *)
Lemma C5_malformed_id_counterexample :
  session_of empty_db "abc" = None /\
  complete_session empty_db "abc" "alice" Samples.mon12 (Samples.oid 101)
    = (empty_db, Err InvalidId) /\
  forall detail, Err (A := float) InvalidId <> Err (NotFound detail).
Proof. by repeat split. Qed.

(** C5, amended: a request whose [sessionId] resolves to no stored session
    fails and leaves the whole store as it was; the failure is the
    not-found response when the [sessionId] is a valid [ObjectId], and
    [InvalidId] otherwise. *)
Theorem C5_unknown_session d sid u now nid :
  session_of d sid = None ->
  complete_session d sid u now nid =
    (d, Err (if ObjectId_of_str sid is Some _
             then NotFound "Session not found" else InvalidId)).
Proof.
  unfold session_of, complete_session.
  destruct (ObjectId_of_str sid) as [o|]; [|done]. by intros ->.
Qed.

Lemma C5_unknown_session_witness :
  session_of Samples.db_started Samples.sid9 = None /\
  complete_session Samples.db_started Samples.sid9 "alice" Samples.mon12
    (Samples.oid 101)
  = (Samples.db_started, Err (NotFound "Session not found")).
Proof.
  split; [done|].
  exact (C5_unknown_session Samples.db_started Samples.sid9 "alice"
           Samples.mon12 (Samples.oid 101) eq_refl).
Defined.

(** ** Reading statistics *)

(** C7: for a user without stored statistics [get_stats] returns the
    defaults (zero hours, no session, streak 0, no [lastSessionDate], seven
    zeros) and leaves the store as it was. *)
Theorem C7_get_stats_default d u :
  stats_of d u = None ->
  (get_stats d u).1 = d /\
  (get_stats d u).2 =
    mk_stats_response None u 0%float 0 (Some 0) None
      (Some [0; 0; 0; 0; 0; 0; 0]%float).
Proof. unfold stats_of, get_stats. by intros ->. Qed.

Lemma C7_get_stats_default_witness :
  stats_of Samples.db_monday "bob" = None /\
  (get_stats Samples.db_monday "bob").1 = Samples.db_monday /\
  (get_stats Samples.db_monday "bob").2 =
    mk_stats_response None "bob" 0%float 0 (Some 0) None
      (Some [0; 0; 0; 0; 0; 0; 0]%float).
Proof.
  split; [done|].
  exact (C7_get_stats_default Samples.db_monday "bob" eq_refl).
Defined.

(** ** Runs of completions *)

Lemma run_cons d c cs : run d (c :: cs) = run (complete d c).1 cs.
Proof. done. Qed.

Lemma stats_of_complete_skip d c u :
  c_userId c <> u \/ (exists e, (complete d c).2 = Err e) ->
  stats_of (complete d c).1 u = stats_of d u.
Proof. apply stats_of_complete_other. Qed.

Lemma credited_skip u d c cs :
  c_userId c <> u \/ (exists e, (complete d c).2 = Err e) ->
  credited u d (c :: cs) = credited u (complete d c).1 cs.
Proof.
  intros H. simpl. destruct (complete d c).2 as [h|e] eqn:E; [|done].
  destruct H as [H|[e [=]]]. by rewrite bool_decide_eq_false_2.
Qed.

Lemma credited_count u d c cs h :
  c_userId c = u -> (complete d c).2 = Ok h ->
  credited u d (c :: cs) = (c_now c, h) :: credited u (complete d c).1 cs.
Proof. intros Hu Hh. simpl. by rewrite Hh, bool_decide_eq_true_2. Qed.

(** Whether a request is credited to [u] or leaves [u] alone. *)
Lemma complete_cases u d c :
  (c_userId c = u /\ exists h, complete d c = ((complete d c).1, Ok h)) \/
  (c_userId c <> u \/ exists e, (complete d c).2 = Err e).
Proof.
  destruct (decide (c_userId c = u)) as [Hu|Hu]; [|by right; left].
  destruct (complete d c) as [d' [h|e]] eqn:E.
  - left. split; [done|]. by exists h.
  - right. right. by exists e.
Qed.

Lemma float_sum_cons z x l : float_sum z (x :: l) = float_sum (z + x) l.
Proof. done. Qed.

(** Totals along a run, from stored statistics or from none. *)
Lemma run_totals u cs : forall d,
  match stats_of d u, stats_of (run d cs) u with
  | Some st, Some st' =>
      totalHours st' = float_sum (totalHours st) (hours u d cs) /\
      sessionsCount st' = sessionsCount st + Z.of_nat (length (hours u d cs))
  | Some _, None => False
  | None, Some st' =>
      hours u d cs <> [] /\
      totalHours st' = sum_hours (hours u d cs) /\
      sessionsCount st' = Z.of_nat (length (hours u d cs))
  | None, None => hours u d cs = []
  end.
Proof.
  unfold hours. induction cs as [|c cs IH]; intros d.
  - simpl. destruct (stats_of d u); [|done]. split; [done|lia].
  - rewrite run_cons. specialize (IH (complete d c).1).
    destruct (complete_cases u d c) as [(Hu & h & Hc)|Hskip].
    + rewrite (credited_count u d c cs h Hu) by (by rewrite Hc).
      pose proof (stats_of_complete_same _ _ _ _ _ _ _ Hc) as Hs.
      rewrite Hu in Hs.
      rewrite fmap_cons. cbn [snd length].
      destruct (stats_of d u) as [st|];
        destruct Hs as (w & _ & Hs); rewrite Hs in IH;
        destruct (stats_of (run _ cs) u) as [st'|]; try done;
        destruct IH as [Ht Hn]; cbn [totalHours sessionsCount next_stats
          first_stats set_stats] in Ht, Hn.
      * split; [by rewrite float_sum_cons|lia].
      * repeat split; [done|done|lia].
    + rewrite (credited_skip u d c cs Hskip).
      by rewrite (stats_of_complete_skip d c u Hskip) in IH.
Qed.

(** A completion keeps every session's start. *)
Lemma find_one_update_one_fmap {A B} (p q : A -> bool) (f : A -> A)
    (g : A -> B) (l : list A) :
  (forall x, p (f x) = p x) -> (forall x, g (f x) = g x) ->
  g <$> find_one p (update_one q f l) = g <$> find_one p l.
Proof.
  intros Hp Hg. induction l as [|y l IH]; simpl; [done|].
  destruct (q y); simpl.
  - rewrite Hp. destruct (p y); simpl; [by rewrite Hg|done].
  - destruct (p y); [done|apply IH].
Qed.

Lemma complete_session_sessions d sid u now nid :
  let d' := (complete_session d sid u now nid).1 in
  focus_sessions d' = focus_sessions d \/
  exists o, focus_sessions d' =
            update_one (by_session_id o) (set_completed now) (focus_sessions d).
Proof.
  unfold complete_session.
  destruct (ObjectId_of_str sid) as [o|]; [|by left].
  destruct (find_one _ (focus_sessions d)); [|by left].
  right. exists o. simpl.
  destruct (find_one _ (user_stats d)); by destruct (add_at _ _ _).
Qed.

Lemma elapsed_complete d c c' : elapsed (complete d c).1 c' = elapsed d c'.
Proof.
  unfold elapsed, session_of.
  destruct (ObjectId_of_str (c_sessionId c')) as [o'|]; [|done].
  destruct (complete_session_sessions d (c_sessionId c) (c_userId c) (c_now c)
              (c_new_id c)) as [H|[o H]]; unfold complete; rewrite H; [done|].
  by apply find_one_update_one_fmap.
Qed.

Lemma week_shaped_complete d c u :
  week_shaped d u -> week_shaped (complete d c).1 u.
Proof.
  unfold week_shaped. intros Hw.
  destruct (complete_cases u d c) as [(Hu & h & Hc)|Hskip].
  - pose proof (stats_of_complete_same _ _ _ _ _ _ _ Hc) as Hs.
    rewrite Hu in Hs. destruct (stats_of d u) as [st|];
      destruct Hs as (w & Hadd & ->); simpl;
      by rewrite (add_at_length _ _ _ _ Hadd).
  - by rewrite (stats_of_complete_skip d c u Hskip).
Qed.

(** Requests of [u] that name stored sessions are all credited, each with
    the hours from its session's start. *)
Lemma credited_all u cs : forall d hs,
  week_shaped d u ->
  Forall (fun c => c_userId c = u) cs ->
  Forall2 (fun c h => elapsed d c = Some h) cs hs ->
  credited u d cs = zip (c_now <$> cs) hs.
Proof.
  induction cs as [|c cs IH]; intros d hs Hw Hu H2.
  - by inversion H2.
  - inversion H2 as [|? h ? hs' He H2']; subst.
    inversion Hu as [|? ? Hc Hu']; subst.
    unfold elapsed in He.
    destruct (session_of d (c_sessionId c)) as [s|] eqn:Hs; [|done].
    injection He as <-.
    destruct (complete_session_succeeds d (c_sessionId c) (c_userId c) (c_now c)
                (c_new_id c) s Hs Hw) as [d' Hd'].
    rewrite (credited_count (c_userId c) d c cs _ eq_refl)
      by (unfold complete; by rewrite Hd').
    simpl. f_equal. apply IH; [by apply week_shaped_complete|done|].
    eapply Forall2_impl; [exact H2'|]. intros c' h' Hc'.
    by rewrite elapsed_complete.
Qed.

Lemma hours_all_credited u cs d hs :
  week_shaped d u ->
  Forall (fun c => c_userId c = u) cs ->
  Forall2 (fun c h => elapsed d c = Some h) cs hs ->
  hours u d cs = hs /\ forall k, hours_on k u d cs = on_weekday k cs hs.
Proof.
  intros Hw Hu H2. unfold hours, hours_on, on_weekday.
  rewrite (credited_all u cs d hs Hw Hu H2). split; [|done].
  apply snd_zip. rewrite length_fmap. by rewrite (Forall2_length _ _ _ H2).
Qed.

Lemma complete_ok_elapsed d c d' h :
  complete d c = (d', Ok h) -> elapsed d c = Some h.
Proof.
  intros H. destruct (complete_session_ok_session _ _ _ _ _ _ _ H)
    as (s & Hs & -> & _).
  unfold elapsed. by rewrite Hs.
Qed.

(** C3: a completion credited to a user with stored statistics adds its own
    duration (the hours from the session's start to the completion) to
    [totalHours] and one to [sessionsCount]; for a user who starts without
    statistics, after any run of requests [totalHours] is the sum of the
    durations of the user's successful completions and [sessionsCount]
    their number; and when the run is N requests of that user for stored
    sessions, all N succeed, so the sum is over the N elapsed durations and
    the count is N. *)
Theorem C3_totals u d :
  (forall c d' h st,
     c_userId c = u -> stats_of d u = Some st -> complete d c = (d', Ok h) ->
     elapsed d c = Some h /\
     exists st',
       stats_of d' u = Some st' /\
       totalHours st' = (totalHours st + h)%float /\
       sessionsCount st' = sessionsCount st + 1) /\
  (forall cs,
     stats_of d u = None ->
     match stats_of (run d cs) u with
     | Some st =>
         hours u d cs <> [] /\
         totalHours st = sum_hours (hours u d cs) /\
         sessionsCount st = Z.of_nat (length (hours u d cs))
     | None => hours u d cs = []
     end) /\
  (forall cs hs,
     stats_of d u = None ->
     Forall (fun c => c_userId c = u) cs ->
     Forall2 (fun c h => elapsed d c = Some h) cs hs ->
     cs <> [] ->
     exists st,
       stats_of (run d cs) u = Some st /\
       totalHours st = sum_hours hs /\
       sessionsCount st = Z.of_nat (length cs)).
Proof.
  split; [|split].
  - intros c d' h st Hu Hst Hc. split; [by eapply complete_ok_elapsed|].
    pose proof (stats_of_complete_same _ _ _ _ _ _ _ Hc) as Hs.
    rewrite Hu, Hst in Hs. destruct Hs as (w & _ & Hs). by eexists.
  - intros cs Hst. pose proof (run_totals u cs d) as H. by rewrite Hst in H.
  - intros cs hs Hst Hu H2 Hne.
    assert (hours u d cs = hs) as Hh.
    { apply hours_all_credited; [|done|done]. unfold week_shaped. by rewrite Hst. }
    pose proof (run_totals u cs d) as H. rewrite Hst, Hh in H.
    pose proof (Forall2_length _ _ _ H2) as Hlen.
    destruct (stats_of (run d cs) u) as [st|].
    + destruct H as (_ & Ht & Hn). exists st. rewrite Hlen. by repeat split.
    + rewrite H in Hlen. by destruct cs.
Qed.

Lemma C3_totals_witness :
  (stats_of Samples.db_started "alice" = None /\
   Forall (fun c => c_userId c = "alice")
     [Samples.first_done; Samples.second_done; Samples.third_done] /\
   Forall2 (fun c h => elapsed Samples.db_started c = Some h)
     [Samples.first_done; Samples.second_done; Samples.third_done]
     [2; 1; 3]%float) /\
  exists st,
    stats_of (run Samples.db_started
                [Samples.first_done; Samples.second_done; Samples.third_done])
      "alice" = Some st /\
    totalHours st = sum_hours [2; 1; 3]%float /\
    sessionsCount st = Z.of_nat 3.
Proof.
  assert (Forall (fun c => c_userId c = "alice")
            [Samples.first_done; Samples.second_done; Samples.third_done])
    as Hu by (by repeat constructor).
  assert (Forall2 (fun c h => elapsed Samples.db_started c = Some h)
            [Samples.first_done; Samples.second_done; Samples.third_done]
            [2; 1; 3]%float)
    as H2 by (by repeat constructor).
  split; [done|].
  exact (proj2 (proj2 (C3_totals "alice" Samples.db_started)) _ _ eq_refl Hu H2
           ltac:(done)).
Defined.

(** ** The weekly table *)

Lemma hours_on_skip k u d c cs :
  c_userId c <> u \/ (exists e, (complete d c).2 = Err e) ->
  hours_on k u d (c :: cs) = hours_on k u (complete d c).1 cs.
Proof. intros H. unfold hours_on. by rewrite (credited_skip u d c cs H). Qed.

Lemma hours_on_count k u d c cs h :
  c_userId c = u -> (complete d c).2 = Ok h ->
  hours_on k u d (c :: cs) =
  if weekday (c_now c) =? k
  then h :: hours_on k u (complete d c).1 cs
  else hours_on k u (complete d c).1 cs.
Proof.
  intros Hu Hh. unfold hours_on. rewrite (credited_count u d c cs h Hu Hh).
  simpl. by destruct (weekday (c_now c) =? k).
Qed.

Lemma add_at_lookup (w w' : list float) (t : datetime) x k :
  0 <= k ->
  add_at w (weekday t) x = Some w' ->
  w' !! Z.to_nat k =
  if weekday t =? k then (fun y => (y + x)%float) <$> w !! Z.to_nat k
  else w !! Z.to_nat k.
Proof.
  intros Hk H. destruct (add_at_inv _ _ _ _ H) as (y & Hy & ->).
  pose proof (weekday_range t) as Hr.
  destruct (Z.eqb_spec (weekday t) k) as [E|Hne].
  - rewrite <- E, Hy. simpl. apply list_lookup_insert_eq. by eapply lookup_lt_Some.
  - apply list_lookup_insert_ne. lia.
Qed.

(** One entry of the weekly table along a run. *)
Lemma run_weekly u k cs : 0 <= k < 7 -> forall d,
  match stats_of d u, stats_of (run d cs) u with
  | Some st, Some st' =>
      default zeros7 (weeklyData st') !! Z.to_nat k =
        (fun x => float_sum x (hours_on k u d cs))
          <$> default zeros7 (weeklyData st) !! Z.to_nat k /\
      length (default zeros7 (weeklyData st')) =
        length (default zeros7 (weeklyData st)) /\
      (is_Some (weeklyData st) -> is_Some (weeklyData st'))
  | Some _, None => False
  | None, Some st' =>
      exists w, weeklyData st' = Some w /\ length w = 7%nat /\
                w !! Z.to_nat k = Some (float_sum 0 (hours_on k u d cs))
  | None, None => True
  end.
Proof.
  intros Hk. induction cs as [|c cs IH]; intros d.
  - simpl. destruct (stats_of d u) as [st|]; [|done].
    repeat split; [|done]. unfold hours_on. simpl.
    by destruct (_ !! _).
  - rewrite run_cons. specialize (IH (complete d c).1).
    destruct (complete_cases u d c) as [(Hu & h & Hc)|Hskip].
    + rewrite (hours_on_count k u d c cs h Hu) by (by rewrite Hc).
      pose proof (stats_of_complete_same _ _ _ _ _ _ _ Hc) as Hs.
      rewrite Hu in Hs.
      destruct (stats_of d u) as [st|];
        destruct Hs as (w & Hadd & Hs); rewrite Hs in IH;
        destruct (stats_of (run _ cs) u) as [st'|]; try done;
        destruct IH as (Hl & Hn & Hsome);
        cbn [weeklyData next_stats first_stats set_stats default from_option id]
          in Hl, Hn, Hsome;
        rewrite (add_at_lookup _ _ _ _ k ltac:(lia) Hadd) in Hl;
        rewrite (add_at_length _ _ _ _ Hadd) in Hn.
      * repeat split; [|done|intros _; by apply Hsome].
        rewrite Hl. destruct (weekday (c_now c) =? k); [|done].
        by destruct (default zeros7 (weeklyData st) !! Z.to_nat k).
      * destruct (Hsome ltac:(done)) as [w' Hw']. rewrite Hw' in Hl, Hn.
        exists w'. repeat split; [done|done|]. simpl in Hl. rewrite Hl.
        rewrite (lookup_replicate_2 7 0%float) by lia.
        by destruct (weekday (c_now c) =? k).
    + rewrite (hours_on_skip k u d c cs Hskip).
      by rewrite (stats_of_complete_skip d c u Hskip) in IH.
Qed.

(** C4: a completion credited to a user with stored statistics adds its
    duration to the entry of [weeklyData] at the weekday of the completion
    (0 is Monday, 6 is Sunday) and leaves every other entry as it was; for
    a user who starts without statistics, after any run of requests the
    entry of each weekday is the sum, from [0.0], of the durations of the
    user's successful completions recorded on that weekday. *)
Theorem C4_weekly u d :
  (forall c d' h st,
     c_userId c = u -> stats_of d u = Some st -> complete d c = (d', Ok h) ->
     let w := default zeros7 (weeklyData st) in
     let i := Z.to_nat (weekday (c_now c)) in
     exists st' w' y,
       stats_of d' u = Some st' /\ weeklyData st' = Some w' /\
       length w' = length w /\
       w !! i = Some y /\ w' !! i = Some (y + h)%float /\
       forall j, j <> i -> w' !! j = w !! j) /\
  (forall cs,
     stats_of d u = None ->
     match stats_of (run d cs) u with
     | Some st =>
         exists w, weeklyData st = Some w /\ length w = 7%nat /\
           forall k, 0 <= k < 7 ->
             w !! Z.to_nat k = Some (float_sum 0 (hours_on k u d cs))
     | None => hours u d cs = []
     end) /\
  (forall cs hs,
     stats_of d u = None ->
     Forall (fun c => c_userId c = u) cs ->
     Forall2 (fun c h => elapsed d c = Some h) cs hs ->
     cs <> [] ->
     exists st w,
       stats_of (run d cs) u = Some st /\
       weeklyData st = Some w /\ length w = 7%nat /\
       forall k, 0 <= k < 7 ->
         w !! Z.to_nat k = Some (float_sum 0 (on_weekday k cs hs))).
Proof.
  assert (forall cs, stats_of d u = None ->
            match stats_of (run d cs) u with
            | Some st =>
                exists w, weeklyData st = Some w /\ length w = 7%nat /\
                  forall k, 0 <= k < 7 ->
                    w !! Z.to_nat k = Some (float_sum 0 (hours_on k u d cs))
            | None => hours u d cs = []
            end) as Hrun.
  { intros cs Hst.
    pose proof (run_totals u cs d) as Ht. rewrite Hst in Ht.
    destruct (stats_of (run d cs) u) as [st|] eqn:E; [|done].
    pose proof (run_weekly u 0 cs ltac:(lia) d) as H0. rewrite Hst, E in H0.
    destruct H0 as (w & Hw & Hlen & _). exists w. repeat split; [done|done|].
    intros k Hk. pose proof (run_weekly u k cs Hk d) as H. rewrite Hst, E in H.
    destruct H as (w' & Hw' & _ & H). congruence. }
  split; [|split; [exact Hrun|]].
  - intros c d' h st Hu Hst Hc w i.
    pose proof (stats_of_complete_same _ _ _ _ _ _ _ Hc) as Hs.
    rewrite Hu, Hst in Hs. destruct Hs as (w' & Hadd & Hs).
    destruct (add_at_inv _ _ _ _ Hadd) as (y & Hy & ->).
    eexists _, _, y. split; [exact Hs|]. split; [done|].
    fold w i in Hy |- *. repeat split; [by rewrite length_insert|done| |].
    + apply list_lookup_insert_eq. by eapply lookup_lt_Some.
    + intros j Hj. by apply list_lookup_insert_ne.
  - intros cs hs Hst Hu H2 Hne.
    destruct (hours_all_credited u cs d hs) as [Hh Hon]; [|done|done|].
    { unfold week_shaped. by rewrite Hst. }
    specialize (Hrun cs Hst).
    destruct (stats_of (run d cs) u) as [st|].
    + destruct Hrun as (w & Hw & Hlen & Hk). exists st, w.
      repeat split; [done|done|]. intros k Hr. rewrite <- Hon. by apply Hk.
    + rewrite Hh in Hrun. pose proof (Forall2_length _ _ _ H2) as Hl.
      rewrite Hrun in Hl. by destruct cs.
Qed.

Lemma C4_weekly_witness :
  (stats_of Samples.db_started "alice" = None /\
   Forall (fun c => c_userId c = "alice")
     [Samples.first_done; Samples.second_done; Samples.third_done] /\
   Forall2 (fun c h => elapsed Samples.db_started c = Some h)
     [Samples.first_done; Samples.second_done; Samples.third_done]
     [2; 1; 3]%float) /\
  exists st w,
    stats_of Samples.db_thursday "alice" = Some st /\
    weeklyData st = Some w /\ length w = 7%nat /\
    forall k, 0 <= k < 7 ->
      w !! Z.to_nat k =
      Some (float_sum 0
              (on_weekday k
                 [Samples.first_done; Samples.second_done; Samples.third_done]
                 [2; 1; 3]%float)).
Proof.
  assert (Forall (fun c => c_userId c = "alice")
            [Samples.first_done; Samples.second_done; Samples.third_done])
    as Hu by (by repeat constructor).
  assert (Forall2 (fun c h => elapsed Samples.db_started c = Some h)
            [Samples.first_done; Samples.second_done; Samples.third_done]
            [2; 1; 3]%float)
    as H2 by (by repeat constructor).
  split; [done|].
  exact (proj2 (proj2 (C4_weekly "alice" Samples.db_started)) _ _ eq_refl Hu H2
           ltac:(done)).
Defined.

(** The scenario of the specification: two hours on Monday, one on Tuesday,
    three on Thursday. *)
Example monday_tuesday_thursday :
  (currentStreak <$> stats_of Samples.db_monday "alice",
   currentStreak <$> stats_of Samples.db_tuesday "alice",
   currentStreak <$> stats_of Samples.db_thursday "alice")
  = (Some (Some 1), Some (Some 2), Some (Some 1)) /\
  stats_of Samples.db_thursday "alice" = Some Samples.stats_thursday.
Proof. by split. Qed.

(** ** Completing a session twice *)

Lemma stats_after_complete d sid u now nid d' h :
  week_shaped d u ->
  complete_session d sid u now nid = (d', Ok h) ->
  exists st w, stats_of d' u = Some st /\ weeklyData st = Some w /\
               length w = 7%nat.
Proof.
  unfold week_shaped. intros Hw H.
  pose proof (stats_of_complete_same _ _ _ _ _ _ _ H) as Hs.
  destruct (stats_of d u) as [st|]; destruct Hs as (w & Hadd & Hs);
    eexists _, w; (split; [exact Hs|]); (split; [done|]);
    by rewrite (add_at_length _ _ _ _ Hadd).
Qed.

(** C6: completing is not idempotent.  After a completion has succeeded, a
    second request for the same session and user succeeds too: it writes
    the new time over [endTime], sets [completed] again, and updates the
    statistics once more, with one more session and the hours from the
    session's start to the new time added to [totalHours] and to the
    weekday's entry of [weeklyData]. *)
Theorem C6_completing_twice d sid u now1 nid1 d1 h1 now2 nid2 :
  week_shaped d u ->
  complete_session d sid u now1 nid1 = (d1, Ok h1) ->
  exists s1 st1 w1 y d2 h2 s2 st2,
    session_of d1 sid = Some s1 /\
    completed s1 = true /\ endTime s1 = Some now1 /\
    stats_of d1 u = Some st1 /\ weeklyData st1 = Some w1 /\
    w1 !! Z.to_nat (weekday now2) = Some y /\
    complete_session d1 sid u now2 nid2 = (d2, Ok h2) /\
    h2 = actual_duration (startTime s1) now2 /\
    session_of d2 sid = Some s2 /\
    completed s2 = true /\ endTime s2 = Some now2 /\
    stats_of d2 u = Some st2 /\
    sessionsCount st2 = sessionsCount st1 + 1 /\
    totalHours st2 = (totalHours st1 + h2)%float /\
    weeklyData st2 = Some (<[Z.to_nat (weekday now2) := (y + h2)%float]> w1).
Proof.
  intros Hw H1.
  destruct (complete_session_ok_session _ _ _ _ _ _ _ H1) as (s & _ & _ & Hs1).
  destruct (stats_after_complete _ _ _ _ _ _ _ Hw H1) as (st1 & w1 & Hst1 & Hw1 & Hlen).
  destruct (complete_session_succeeds d1 sid u now2 nid2 _ Hs1) as [d2 H2].
  { unfold week_shaped. by rewrite Hst1, Hw1. }
  destruct (complete_session_ok_session _ _ _ _ _ _ _ H2) as (s' & Hs' & _ & Hs2).
  assert (s' = set_completed now1 s) as -> by congruence.
  pose proof (stats_of_complete_same _ _ _ _ _ _ _ H2) as Hst2.
  rewrite Hst1 in Hst2. destruct Hst2 as (w2 & Hadd & Hst2).
  rewrite Hw1 in Hadd. destruct (add_at_inv _ _ _ _ Hadd) as (y & Hy & ->).
  by eexists (set_completed now1 s), st1, w1, y, d2, _, _, _.
Qed.

Lemma C6_completing_twice_witness :
  (week_shaped Samples.db_started "alice" /\
   complete Samples.db_started Samples.first_done
     = (Samples.db_monday, Ok 2%float)) /\
  exists s1 st1 w1 y d2 h2 s2 st2,
    session_of Samples.db_monday Samples.sid1 = Some s1 /\
    completed s1 = true /\ endTime s1 = Some Samples.mon12 /\
    stats_of Samples.db_monday "alice" = Some st1 /\
    weeklyData st1 = Some w1 /\
    w1 !! Z.to_nat (weekday Samples.mon15) = Some y /\
    complete_session Samples.db_monday Samples.sid1 "alice" Samples.mon15
      (Samples.oid 102) = (d2, Ok h2) /\
    h2 = actual_duration (startTime s1) Samples.mon15 /\
    session_of d2 Samples.sid1 = Some s2 /\
    completed s2 = true /\ endTime s2 = Some Samples.mon15 /\
    stats_of d2 "alice" = Some st2 /\
    sessionsCount st2 = sessionsCount st1 + 1 /\
    totalHours st2 = (totalHours st1 + h2)%float /\
    weeklyData st2 =
      Some (<[Z.to_nat (weekday Samples.mon15) := (y + h2)%float]> w1).
Proof.
  split; [by split|].
  exact (C6_completing_twice Samples.db_started Samples.sid1 "alice"
           Samples.mon12 (Samples.oid 101) Samples.db_monday 2%float
           Samples.mon15 (Samples.oid 102) I eq_refl).
Defined.

(** The second completion of the sample session counts it twice: five hours
    after a session that was completed after two. *)
Example completed_twice :
  (fun st => (totalHours st, sessionsCount st, weeklyData st))
    <$> stats_of (complete Samples.db_monday
                    (mk_completion Samples.sid1 "alice" Samples.mon15
                       (Samples.oid 102))).1 "alice"
  = Some (7%float, 2, Some [7; 0; 0; 0; 0; 0; 0]%float).
Proof. reflexivity. Qed.

(** ** Schedules *)

Lemma set_enabled_back b sc :
  enabled sc = Some b -> set_enabled b (set_enabled (negb b) sc) = sc.
Proof. destruct sc. simpl. by intros ->. Qed.

(** C8, as stated, fails: a [schedule_id] that is not a valid [ObjectId]
    names no schedule, and the request fails with [InvalidId], which
    nothing turns into the not-found response. *)
Lemma C8_malformed_id_counterexample :
  schedule_of Samples.db_one_schedule "abc" = None /\
  toggle_schedule Samples.db_one_schedule "abc"
    = (Samples.db_one_schedule, Err InvalidId) /\
  forall detail, Err (A := bool) InvalidId <> Err (NotFound detail).
Proof. by repeat split. Qed.

(** C8, amended: for a stored schedule that holds an [enabled] flag,
    [toggle_schedule] stores the negated flag and returns it, and a second
    request returns the original flag and puts the store back as it was;
    for a [schedule_id] that resolves to no stored schedule the request
    fails and changes nothing, with the not-found response when the
    [schedule_id] is a valid [ObjectId] and with [InvalidId] otherwise. *)
Theorem C8_toggle d schedule_id :
  (forall sc b,
     schedule_of d schedule_id = Some sc -> enabled sc = Some b ->
     exists d1,
       toggle_schedule d schedule_id = (d1, Ok (negb b)) /\
       enabled <$> schedule_of d1 schedule_id = Some (Some (negb b)) /\
       toggle_schedule d1 schedule_id = (d, Ok b)) /\
  (schedule_of d schedule_id = None ->
   toggle_schedule d schedule_id =
     (d, Err (if ObjectId_of_str schedule_id is Some _
              then NotFound "Schedule not found" else InvalidId))).
Proof.
  unfold schedule_of, toggle_schedule.
  destruct (ObjectId_of_str schedule_id) as [o|]; [|by split].
  split; [|by intros ->].
  intros sc b Hsc Hb. rewrite Hsc, Hb. simpl.
  pose proof (find_one_some _ _ _ Hsc) as Hp.
  eexists. split; [done|]. simpl.
  rewrite (find_one_update_one _ (set_enabled (negb b)) _ _ Hsc Hp). simpl.
  split; [done|]. rewrite negb_involutive.
  rewrite update_one_twice by done.
  rewrite (update_one_id _ _ _ sc Hsc) by (by apply set_enabled_back).
  by destruct d.
Qed.

Lemma C8_toggle_witness :
  (schedule_of Samples.db_one_schedule Samples.sid1 = Some Samples.schedule_1 /\
   enabled Samples.schedule_1 = Some true) /\
  exists d1,
    toggle_schedule Samples.db_one_schedule Samples.sid1 = (d1, Ok false) /\
    enabled <$> schedule_of d1 Samples.sid1 = Some (Some false) /\
    toggle_schedule d1 Samples.sid1 = (Samples.db_one_schedule, Ok true).
Proof.
  split; [by split|].
  exact (proj1 (C8_toggle Samples.db_one_schedule Samples.sid1)
           Samples.schedule_1 true eq_refl eq_refl).
Defined.

(** [get_schedules] returns the first hundred of the user's schedules, in
    storage order, and all of them when there are no more than that. *)
Lemma get_schedules_first_100 d u :
  (get_schedules d u).1 = d /\
  (get_schedules d u).2 =
    render_schedule <$> take 100 (List.filter (by_schedule_user u) (schedules d)) /\
  ((length (List.filter (by_schedule_user u) (schedules d)) <= 100)%nat ->
   (get_schedules d u).2 =
     render_schedule <$> List.filter (by_schedule_user u) (schedules d)).
Proof.
  repeat split. intros H. unfold get_schedules, find_to_list. simpl.
  by rewrite take_ge.
Qed.

(** C9 fails on the code: of the 101 schedules stored for one user,
    [get_schedules] returns 100 and leaves the last one out. *)
Theorem C9_get_schedules_leaves_out :
  length (List.filter (by_schedule_user "alice")
            (schedules Samples.db_schedules_101)) = 101%nat /\
  Samples.schedule_101 ∈ schedules Samples.db_schedules_101 /\
  sc_userId Samples.schedule_101 = "alice" /\
  length (get_schedules Samples.db_schedules_101 "alice").2 = 100%nat /\
  str_of_ObjectId (sc_id Samples.schedule_101)
    ∉ (get_schedules Samples.db_schedules_101 "alice").2.*1.
Proof.
  split; [by vm_compute|]. split.
  - apply list_elem_of_lookup. exists 100%nat. by vm_compute.
  - split; [done|]. split; [by vm_compute|].
    apply (bool_decide_unpack _). by vm_compute.
Qed.

(** * Further properties *)

(** ** Identifiers as strings *)

Lemma hexdigit_hexval n :
  (n < 16)%N -> hexval (hexdigit n) = Some n /\ is_space (hexdigit n) = false.
Proof.
  intros H. destruct n as [|p]; [done|].
  do 4 (destruct p as [p|p|]; try done); lia.
Qed.

Lemma fromhex_str_of_ObjectId o :
  Forall (fun b => (b < 256)%N) o -> fromhex (str_of_ObjectId o) = Some o.
Proof.
  induction 1 as [|b o Hb _ IH]; [done|].
  assert ((b / 16 < 16)%N) as H1 by (apply N.Div0.div_lt_upper_bound; lia).
  assert ((b mod 16 < 16)%N) as H2 by (apply N.mod_lt; lia).
  destruct (hexdigit_hexval _ H1) as [Hv1 Hs1].
  destruct (hexdigit_hexval _ H2) as [Hv2 _].
  cbn [str_of_ObjectId fromhex]. rewrite Hs1, Hv1, Hv2, IH. simpl.
  do 2 f_equal. symmetry. apply N.div_mod'.
Qed.

Lemma length_str_of_ObjectId o :
  String.length (str_of_ObjectId o) = (2 * length o)%nat.
Proof. induction o as [|b o IH]; simpl; [done|]. rewrite IH. lia. Qed.

(** The string of a generated identifier reads back as that identifier. *)
Lemma ObjectId_round_trip o :
  valid_oid o -> ObjectId_of_str (str_of_ObjectId o) = Some o.
Proof.
  intros [Hl Hb]. unfold ObjectId_of_str.
  rewrite length_str_of_ObjectId, Hl. simpl. by apply fromhex_str_of_ObjectId.
Qed.

Lemma valid_oid_sample n : (n < 256)%N -> valid_oid (Samples.oid n).
Proof. intros H. split; [done|]. repeat constructor; lia. Qed.

(** ** More on collections *)

Section CollectionFacts2.
Context {A : Type}.
Implicit Types (p q : A -> bool) (f g : A -> A) (l : list A).

Lemma find_one_none p l :
  find_one p l = None <-> Forall (fun x => p x = false) l.
Proof.
  induction l as [|y l IH]; simpl; [by split; [constructor|]|].
  destruct (p y) eqn:E.
  - split; [done|]. intros H. inversion H. congruence.
  - rewrite IH. split; [by constructor|]. by inversion 1.
Qed.

Lemma find_one_elem_of p l x : find_one p l = Some x -> x ∈ l.
Proof.
  induction l as [|y l IH]; simpl; [done|].
  destruct (p y); [intros [= ->]; by left|]. intros H. right. by apply IH.
Qed.

Lemma find_one_app p l l' :
  find_one p (l ++ l') =
  match find_one p l with Some x => Some x | None => find_one p l' end.
Proof. induction l as [|y l IH]; simpl; [done|]. by destruct (p y). Qed.

Lemma update_one_length p f l : length (update_one p f l) = length l.
Proof.
  induction l as [|y l IH]; simpl; [done|]. destruct (p y); simpl; by f_equal.
Qed.

Lemma update_one_Forall (P : A -> Prop) p f l :
  Forall P l -> (forall x, x ∈ l -> P x -> p x = true -> P (f x)) ->
  Forall P (update_one p f l).
Proof.
  induction 1 as [|y l Hy Hl IH]; intros Hf; simpl; [done|].
  destruct (p y) eqn:E.
  - constructor; [|done]. apply Hf; [by left|done|done].
  - constructor; [done|]. apply IH. intros x Hx. apply Hf. by right.
Qed.

Lemma update_one_fmap {B} (k : A -> B) p f l :
  (forall x, k (f x) = k x) -> k <$> update_one p f l = k <$> l.
Proof.
  intros Hk. induction l as [|y l IH]; [done|]. cbn [update_one].
  destruct (p y); rewrite !fmap_cons; [by rewrite Hk|by rewrite IH].
Qed.

End CollectionFacts2.


Lemma find_schedule_fresh o (l : list schedule_doc) :
  o ∉ (sc_id <$> l) -> find_one (by_schedule_id o) l = None.
Proof.
  intros H. apply find_one_none, Forall_forall. intros s Hs.
  apply bool_decide_eq_false_2. intros <-. apply H.
  by apply list_elem_of_fmap_2.
Qed.

(** ** Starting a session *)






(** ** What a completion leaves alone *)

Lemma complete_session_sessions_of d sid u now nid :
  let d' := (complete_session d sid u now nid).1 in
  focus_sessions d' = focus_sessions d \/
  exists o, ObjectId_of_str sid = Some o /\
    focus_sessions d' =
      update_one (by_session_id o) (set_completed now) (focus_sessions d).
Proof.
  unfold complete_session.
  destruct (ObjectId_of_str sid) as [o|]; [|by left].
  destruct (find_one _ (focus_sessions d)); [|by left].
  right. exists o. split; [done|]. simpl.
  destruct (find_one _ (user_stats d)); by destruct (add_at _ _ _).
Qed.

(** X3: whatever its outcome, [complete_session] changes nothing but the
    end time and the completed flag of the session it names and the
    statistics of the user it names: the schedules, the statistics of
    every other user, the number of sessions, what each session was started
    with, and every session under another identifier are as they were. *)
Theorem X3_complete_frame d sid u now nid :
  let r := complete_session d sid u now nid in
  schedules r.1 = schedules d /\
  (forall v, v <> u -> stats_of r.1 v = stats_of d v) /\
  length (focus_sessions r.1) = length (focus_sessions d) /\
  session_core <$> focus_sessions r.1 = session_core <$> focus_sessions d /\
  (forall sid' o o',
     ObjectId_of_str sid = Some o -> ObjectId_of_str sid' = Some o' ->
     o <> o' -> session_of r.1 sid' = session_of d sid').
Proof.
  intros r. repeat split.
  - subst r. destruct (complete_session d sid u now nid) as [d' [h|e]] eqn:E.
    + by destruct (complete_session_ok _ _ _ _ _ _ _ E) as (?&?&?&?&?&?&?&?).
    + by destruct (complete_session_err _ _ _ _ _ _ _ E) as (?&?&?).
  - intros v Hv. apply stats_of_complete_other. by left.
  - destruct (complete_session_sessions d sid u now nid) as [H|[o H]];
      fold r in H; rewrite H; [done|apply update_one_length].
  - destruct (complete_session_sessions d sid u now nid) as [H|[o H]];
      fold r in H; rewrite H; [done|by apply update_one_fmap].
  - intros sid' o o' Ho Ho' Hne. unfold session_of. rewrite Ho'.
    destruct (complete_session_sessions_of d sid u now nid) as [H|(o2 & Ho2 & H)];
      fold r in H; rewrite H; [done|].
    assert (o2 = o) as -> by congruence.
    apply find_one_update_one_frame; intros x Hx; unfold by_session_id in *;
      apply bool_decide_eq_true_1 in Hx; apply bool_decide_eq_false_2;
      simpl; congruence.
Qed.

(** X4: when the stored weekly table of the user is too short for the
    weekday of the completion, the request fails with the uncaught
    [IndexError] after the session was written: the session is left
    completed with its end time, and the statistics are not updated. *)
Theorem X4_short_weekly_table d sid u now nid s st w :
  session_of d sid = Some s ->
  stats_of d u = Some st ->
  weeklyData st = Some w ->
  (length w <= Z.to_nat (weekday now))%nat ->
  exists d',
    complete_session d sid u now nid = (d', Err IndexError) /\
    session_of d' sid = Some (set_completed now s) /\
    user_stats d' = user_stats d /\ schedules d' = schedules d.
Proof.
  intros Hs Hst Hw Hlen. destruct (session_of_some _ _ _ Hs) as (o & Ho & Hf).
  unfold complete_session, stats_of, session_of in *. rewrite Ho, Hf. simpl.
  rewrite Hst, Hw. simpl. unfold add_at.
  rewrite (lookup_ge_None_2 w _ Hlen). eexists. split; [done|]. simpl.
  repeat split. apply find_one_update_one; [done|].
  apply (find_one_some _ _ _ Hf).
Qed.

Lemma X4_short_weekly_table_witness :
  (session_of Samples2.db_short Samples.sid1 = Some Samples2.started1.2 /\
   stats_of Samples2.db_short "bob" = Some Samples2.short_stats /\
   weeklyData Samples2.short_stats = Some [] /\
   (length ([] : list float) <= Z.to_nat (weekday Samples.mon12))%nat) /\
  exists d',
    complete_session Samples2.db_short Samples.sid1 "bob" Samples.mon12
      (Samples.oid 201) = (d', Err IndexError) /\
    session_of d' Samples.sid1
      = Some (set_completed Samples.mon12 Samples2.started1.2) /\
    user_stats d' = user_stats Samples2.db_short /\
    schedules d' = schedules Samples2.db_short.
Proof.
  split; [repeat split; simpl; lia|].
  exact (X4_short_weekly_table Samples2.db_short Samples.sid1 "bob"
           Samples.mon12 (Samples.oid 201) Samples2.started1.2
           Samples2.short_stats [] eq_refl eq_refl eq_refl (le_0_n _)).
Defined.

(** X5: the statistics updated are those of the user the request names,
    not those of the user who started the session: completing a session
    for another user leaves the owner's statistics as they were and counts
    one more session, with the session's duration, for the named user. *)
Theorem X5_credit_to_named_user d sid u now nid d' h s :
  session_of d sid = Some s ->
  s_userId s <> u ->
  complete_session d sid u now nid = (d', Ok h) ->
  stats_of d' (s_userId s) = stats_of d (s_userId s) /\
  exists st',
    stats_of d' u = Some st' /\
    sessionsCount st' =
      match stats_of d u with Some st => sessionsCount st + 1 | None => 1 end /\
    totalHours st' =
      match stats_of d u with
      | Some st => (totalHours st + h)%float
      | None => h
      end.
Proof.
  intros Hs Hne H. split.
  - pose proof (stats_of_complete_other d sid u now nid (s_userId s)) as Ho.
    rewrite H in Ho. apply Ho. by left.
  - pose proof (stats_of_complete_same _ _ _ _ _ _ _ H) as Hsame.
    destruct (stats_of d u) as [st|]; destruct Hsame as (w & _ & ->);
      by eexists.
Qed.

Lemma X5_credit_to_named_user_witness :
  (session_of Samples2.started1.1 Samples.sid1 = Some Samples2.started1.2 /\
   s_userId Samples2.started1.2 <> "bob" /\
   complete_session Samples2.started1.1 Samples.sid1 "bob" Samples.mon12
     (Samples.oid 201) = (Samples2.db_bob, Ok 2%float)) /\
  stats_of Samples2.db_bob "alice" = stats_of Samples2.started1.1 "alice" /\
  exists st',
    stats_of Samples2.db_bob "bob" = Some st' /\
    sessionsCount st' = 1 /\ totalHours st' = 2%float.
Proof.
  assert (s_userId Samples2.started1.2 <> "bob") as Hne by done.
  split; [done|].
  exact (X5_credit_to_named_user Samples2.started1.1 Samples.sid1 "bob"
           Samples.mon12 (Samples.oid 201) Samples2.db_bob 2%float
           Samples2.started1.2 eq_refl Hne eq_refl).
Defined.

(** ** Deleting from a collection *)

Section DeleteFacts.
Context {A : Type}.
Implicit Types (p q : A -> bool) (l : list A).

Lemma delete_one_none p l : find_one p l = None -> delete_one p l = (0%nat, l).
Proof.
  induction l as [|y l IH]; simpl; [done|].
  destruct (p y); [done|]. intros H. by rewrite (IH H).
Qed.

Lemma delete_one_some p l x :
  find_one p l = Some x ->
  (delete_one p l).1 = 1%nat /\ l ≡ₚ x :: (delete_one p l).2.
Proof.
  induction l as [|y l IH]; simpl; [done|].
  destruct (p y).
  - by intros [= ->].
  - intros H. destruct (IH H) as [H1 H2]. simpl. split; [done|].
    rewrite H2 at 1. apply Permutation_swap.
Qed.

Lemma delete_one_sublist p l : (delete_one p l).2 `sublist_of` l.
Proof.
  induction l as [|y l IH]; simpl; [done|].
  destruct (p y); simpl; [by apply sublist_cons|by apply sublist_skip].
Qed.

Lemma delete_one_Forall (P : A -> Prop) p l :
  Forall P l -> Forall P (delete_one p l).2.
Proof.
  induction 1 as [|y l Hy Hl IH]; simpl; [done|].
  destruct (p y); simpl; [done|by constructor].
Qed.

Lemma delete_one_NoDup {B} (k : A -> B) p l :
  NoDup (k <$> l) -> NoDup (k <$> (delete_one p l).2).
Proof.
  intros H. eapply sublist_NoDup; [exact H|].
  apply fmap_sublist, delete_one_sublist.
Qed.

Lemma find_one_delete_one_frame p q l :
  (forall x, p x = true -> q x = false) ->
  find_one q (delete_one p l).2 = find_one q l.
Proof.
  intros Hpq. induction l as [|y l IH]; simpl; [done|].
  destruct (p y) eqn:E; simpl; [by rewrite (Hpq y E)|by rewrite IH].
Qed.

Lemma delete_one_last p l x :
  find_one p l = None -> p x = true -> delete_one p (l ++ [x]) = (1%nat, l).
Proof.
  intros Hl Hx. induction l as [|y l IH]; simpl in *; [by rewrite Hx|].
  destruct (p y); [done|]. by rewrite (IH Hl).
Qed.

End DeleteFacts.

Lemma find_one_delete_one_gone {A B} `{EqDecision B} (k : A -> B) (o : B)
    (l : list A) :
  NoDup (k <$> l) ->
  find_one (fun x => bool_decide (k x = o))
    (delete_one (fun x => bool_decide (k x = o)) l).2 = None.
Proof.
  induction l as [|y l IH]; [done|]. rewrite fmap_cons, NoDup_cons.
  intros [Hy Hl]. cbn [delete_one]. case_bool_decide as E.
  - simpl. apply find_one_none, Forall_forall. intros x Hx.
    apply bool_decide_eq_false_2. intros Hk. apply Hy. rewrite E, <- Hk.
    by apply list_elem_of_fmap_2.
  - cbn [snd find_one]. rewrite bool_decide_eq_false_2 by done. by apply IH.
Qed.

(** ** The stores the handlers reach *)

Lemma find_stats_none_user u (l : list stats_doc) :
  find_one (by_userId u) l = None -> u ∉ (userId <$> l).
Proof.
  intros H Hu. apply list_elem_of_fmap in Hu as (st & -> & Hst).
  apply find_one_none in H. rewrite Forall_forall in H.
  specialize (H st Hst). unfold by_userId in H.
  by rewrite bool_decide_eq_true_2 in H.
Qed.

Lemma insert_one_NoDup {A B} (k : A -> B) (x : A) (l : list A) :
  NoDup (k <$> l) -> k x ∉ (k <$> l) -> NoDup (k <$> insert_one x l).
Proof.
  intros Hl Hx. unfold insert_one. rewrite fmap_app. apply NoDup_app.
  split; [done|]. split; [|apply NoDup_singleton].
  intros y Hy Hy'. apply list_elem_of_singleton in Hy'. by subst.
Qed.

Lemma insert_one_Forall {A} (P : A -> Prop) (x : A) (l : list A) :
  Forall P l -> P x -> Forall P (insert_one x l).
Proof. intros Hl Hx. apply Forall_app. by split; [|constructor]. Qed.

Lemma set_completed_ok now s : session_ok s -> session_ok (set_completed now s).
Proof.
  intros (_ & Hq & Hv). split; [|done]. simpl. by split; [eexists|].
Qed.

Lemma next_stats_ok st now h w s :
  stats_ok st -> valid_oid (st_id s) ->
  add_at (default zeros7 (weeklyData st)) (weekday now) h = Some w ->
  stats_ok (next_stats st now h w s).
Proof.
  intros [(w0 & k & last & Hw & Hlen & Hk & Hr & Hlast) _] Hv Hadd.
  split; [|done]. exists w, (next_streak st now), now.
  rewrite Hw in Hadd. simpl in Hadd.
  repeat split; try done.
  - by rewrite (add_at_length _ _ _ _ Hadd).
  - unfold next_streak. rewrite Hlast, Hk. simpl.
    repeat case_match; lia.
  - simpl. unfold next_streak. rewrite Hlast, Hk. simpl.
    repeat case_match; lia.
Qed.

Lemma complete_session_db_ok d sid u now nid :
  db_ok d -> valid_oid nid -> nid ∉ (st_id <$> user_stats d) ->
  db_ok (complete_session d sid u now nid).1.
Proof.
  intros [Hs Hsi Hst Hsu Hsti Hsc Hsci] Hv Hfresh.
  assert (Forall session_ok (focus_sessions (complete_session d sid u now nid).1)
          /\ NoDup (s_id <$> focus_sessions (complete_session d sid u now nid).1))
    as [Hs' Hsi'].
  { destruct (complete_session_sessions d sid u now nid) as [H|[o H]];
      rewrite H; [done|]. split.
    - apply update_one_Forall; [done|]. intros x _ Hx _.
      by apply set_completed_ok.
    - by rewrite update_one_fmap. }
  destruct (complete_session d sid u now nid) as [d' [h|e]] eqn:E; simpl in *.
  - destruct (complete_session_ok _ _ _ _ _ _ _ E)
      as (o & s & _ & _ & _ & _ & Hsch & Hu).
    unfold stats_of in Hu.
    destruct (find_one (by_userId u) (user_stats d)) as [st|] eqn:Hf;
      destruct Hu as (w & Hadd & Hu).
    + pose proof (find_one_elem_of _ _ _ Hf) as Hin.
      rewrite Forall_forall in Hst.
      split; try done; rewrite ?Hsch, ?Hu; try done.
      * apply update_one_Forall; [by apply Forall_forall|].
        intros x Hx [_ Hvx] _. apply next_stats_ok; [by apply Hst|done|done].
      * by rewrite update_one_fmap.
      * by rewrite update_one_fmap.
    + split; try done; rewrite ?Hsch, ?Hu; try done.
      * apply insert_one_Forall; [done|]. split; [|done].
        exists w, 1, now. repeat split; try done.
        by rewrite (add_at_length _ _ _ _ Hadd).
      * apply insert_one_NoDup; [done|]. by apply find_stats_none_user.
      * by apply insert_one_NoDup.
  - destruct (complete_session_err _ _ _ _ _ _ _ E) as (Hu & Hsch & _).
    split; try done; by rewrite ?Hu, ?Hsch.
Qed.

(** Every store the handlers reach is well formed. *)
Lemma reachable_db_ok d : reachable d -> db_ok d.
Proof.
  induction 1 as [|d u dur now created k q o _ IH Hq Hv Hf
                  |d sid u now o _ IH Hv Hf
                  |d u t ds n created o _ IH Hv Hf
                  |d sid _ IH|d sid _ IH].
  - split; simpl; constructor.
  - destruct IH. split; simpl; try done.
    + apply insert_one_Forall; [done|]. split; [|split; [|done]]; simpl.
      * split; [done|]. by intros [? ?].
      * by eapply list_elem_of_lookup_2.
    + by apply (insert_one_NoDup s_id).
  - by apply complete_session_db_ok.
  - destruct IH. split; simpl; try done.
    + apply insert_one_Forall; [done|]. by split; [eexists|].
    + by apply (insert_one_NoDup sc_id).
  - destruct IH. unfold delete_schedule.
    destruct (ObjectId_of_str sid) as [o|]; [|done].
    destruct (_ =? _)%nat; split; simpl; try done;
      (by apply delete_one_Forall) || (by apply delete_one_NoDup).
  - destruct IH. unfold toggle_schedule.
    destruct (ObjectId_of_str sid) as [o|]; [|done].
    destruct (find_one _ _) as [sc|]; [|done].
    split; simpl; try done.
    + apply update_one_Forall; [done|]. intros x _ [_ Hx] _. by split; [eexists|].
    + by rewrite update_one_fmap.
Qed.

Lemma reachable_db_done : reachable Samples2.db_done.
Proof.
  unfold Samples2.db_done, Samples2.started1.
  apply reach_complete; [|by apply valid_oid_sample|apply not_elem_of_nil].
  apply (reach_start _ _ _ _ _ 6%nat); [constructor|done| |apply not_elem_of_nil].
  by apply valid_oid_sample.
Qed.


(** X6: in every store the handlers reach, the statistics of a user hold a
    weekly table of seven entries, the date of a last session, and a streak
    that is at least 1 and at most the number of sessions. *)
Theorem X6_reachable_stats d u st :
  reachable d -> stats_of d u = Some st ->
  exists w s last,
    weeklyData st = Some w /\ length w = 7%nat /\
    currentStreak st = Some s /\ 1 <= s <= sessionsCount st /\
    lastSessionDate st = Some last.
Proof.
  intros Hr Hst. destruct (reachable_db_ok d Hr) as [_ _ Hok _ _ _ _].
  rewrite Forall_forall in Hok.
  by destruct (Hok st (find_one_elem_of _ _ _ Hst)) as [H _].
Qed.

Lemma X6_reachable_stats_witness :
  (reachable Samples2.db_done /\
   stats_of Samples2.db_done "alice" = Some Samples2.stats_done) /\
  exists w s last,
    weeklyData Samples2.stats_done = Some w /\ length w = 7%nat /\
    currentStreak Samples2.stats_done = Some s /\
    1 <= s <= sessionsCount Samples2.stats_done /\
    lastSessionDate Samples2.stats_done = Some last.
Proof.
  split; [split; [apply reachable_db_done|done]|].
  exact (X6_reachable_stats Samples2.db_done "alice" Samples2.stats_done
           reachable_db_done eq_refl).
Defined.



(** X8: in every store the handlers reach, a session is completed exactly
    when it has an end time, its quote is one of the list, and no two
    sessions have the same identifier. *)
Theorem X8_reachable_sessions d :
  reachable d ->
  NoDup (s_id <$> focus_sessions d) /\
  forall s, s ∈ focus_sessions d ->
    (completed s = true <-> is_Some (endTime s)) /\
    quote s ∈ MOTIVATIONAL_QUOTES.
Proof.
  intros Hr. destruct (reachable_db_ok d Hr) as [Hs Hnd _ _ _ _ _].
  split; [done|]. intros s Hin. rewrite Forall_forall in Hs.
  by destruct (Hs s Hin) as (? & ? & _).
Qed.

Lemma X8_reachable_sessions_witness :
  reachable Samples2.db_done /\
  NoDup (s_id <$> focus_sessions Samples2.db_done) /\
  forall s, s ∈ focus_sessions Samples2.db_done ->
    (completed s = true <-> is_Some (endTime s)) /\
    quote s ∈ MOTIVATIONAL_QUOTES.
Proof.
  split; [apply reachable_db_done|].
  exact (X8_reachable_sessions Samples2.db_done reachable_db_done).
Defined.

(** X9: in every store the handlers reach, a completion never fails on the
    weekly table: a request whose session resolves succeeds, for whichever
    user it names, and returns the hours from the session's start. *)
Theorem X9_reachable_completion_succeeds d sid u now nid s :
  reachable d -> session_of d sid = Some s ->
  exists d', complete_session d sid u now nid
             = (d', Ok (actual_duration (startTime s) now)).
Proof.
  intros Hr Hs. apply complete_session_succeeds; [done|].
  unfold week_shaped. destruct (stats_of d u) as [st|] eqn:E; [|done].
  destruct (reachable_db_ok d Hr) as [_ _ Hok _ _ _ _].
  rewrite Forall_forall in Hok.
  destruct (Hok st (find_one_elem_of _ _ _ E)) as [(w & ? & ? & -> & ? & _) _].
  done.
Qed.

Lemma X9_reachable_completion_succeeds_witness :
  (reachable Samples2.db_done /\
   session_of Samples2.db_done Samples.sid1
     = Some (set_completed Samples.mon12 Samples2.started1.2)) /\
  exists d', complete_session Samples2.db_done Samples.sid1 "alice"
               Samples.tue11 (Samples.oid 102)
             = (d', Ok (actual_duration Samples.mon10 Samples.tue11)).
Proof.
  split; [split; [apply reachable_db_done|done]|].
  exact (X9_reachable_completion_succeeds Samples2.db_done Samples.sid1 "alice"
           Samples.tue11 (Samples.oid 102) _ reachable_db_done eq_refl).
Defined.

(** ** Deleting, creating and toggling schedules *)

Lemma schedule_of_some d id sc :
  schedule_of d id = Some sc ->
  exists o, ObjectId_of_str id = Some o /\
            find_one (by_schedule_id o) (schedules d) = Some sc.
Proof.
  unfold schedule_of. destruct (ObjectId_of_str id) as [o|]; [|done].
  intros H. by exists o.
Qed.

(** X10: [delete_schedule] for an identifier that resolves to no stored
    schedule fails and leaves the store as it was: with the not-found
    response when the identifier is a valid [ObjectId], with the uncaught
    [InvalidId] when it is not. *)
Theorem X10_delete_unknown d schedule_id :
  schedule_of d schedule_id = None ->
  delete_schedule d schedule_id =
    (d, Err (if ObjectId_of_str schedule_id is Some _
             then NotFound "Schedule not found" else InvalidId)).
Proof.
  unfold schedule_of, delete_schedule.
  destruct (ObjectId_of_str schedule_id) as [o|]; [|done].
  intros H. rewrite (delete_one_none _ _ H). simpl. by destruct d.
Qed.

Lemma X10_delete_unknown_witness :
  schedule_of Samples.db_one_schedule Samples.sid9 = None /\
  delete_schedule Samples.db_one_schedule Samples.sid9 =
    (Samples.db_one_schedule, Err (NotFound "Schedule not found")).
Proof.
  split; [done|].
  exact (X10_delete_unknown Samples.db_one_schedule Samples.sid9 eq_refl).
Defined.

(** X11: [delete_schedule] for an identifier that resolves to a stored
    schedule succeeds and removes that one document: the schedules before
    are those after together with it, every schedule under another
    identifier resolves as before, and the sessions and the statistics are
    as they were. *)
Theorem X11_delete_stored d schedule_id sc :
  schedule_of d schedule_id = Some sc ->
  exists d',
    delete_schedule d schedule_id = (d', Ok "Schedule deleted") /\
    schedules d ≡ₚ sc :: schedules d' /\
    schedules d' `sublist_of` schedules d /\
    focus_sessions d' = focus_sessions d /\ user_stats d' = user_stats d /\
    forall id' o o',
      ObjectId_of_str schedule_id = Some o -> ObjectId_of_str id' = Some o' ->
      o <> o' -> schedule_of d' id' = schedule_of d id'.
Proof.
  intros H. destruct (schedule_of_some _ _ _ H) as (o & Ho & Hf).
  unfold delete_schedule. rewrite Ho.
  destruct (delete_one_some _ _ _ Hf) as [H1 H2]. rewrite H1. simpl.
  eexists. split; [done|]. simpl. repeat split; [done|apply delete_one_sublist|].
  intros id' o1 o' Ho1 Ho' Hne. assert (o1 = o) as -> by congruence.
  unfold schedule_of. rewrite Ho'. simpl. apply find_one_delete_one_frame.
  intros x Hx. unfold by_schedule_id in *. apply bool_decide_eq_true_1 in Hx.
  apply bool_decide_eq_false_2. congruence.
Qed.

Lemma X11_delete_stored_witness :
  schedule_of Samples.db_one_schedule Samples.sid1 = Some Samples.schedule_1 /\
  exists d',
    delete_schedule Samples.db_one_schedule Samples.sid1
      = (d', Ok "Schedule deleted") /\
    schedules Samples.db_one_schedule ≡ₚ Samples.schedule_1 :: schedules d' /\
    schedules d' `sublist_of` schedules Samples.db_one_schedule /\
    focus_sessions d' = focus_sessions Samples.db_one_schedule /\
    user_stats d' = user_stats Samples.db_one_schedule /\
    forall id' o o',
      ObjectId_of_str Samples.sid1 = Some o -> ObjectId_of_str id' = Some o' ->
      o <> o' -> schedule_of d' id' = schedule_of Samples.db_one_schedule id'.
Proof.
  split; [done|].
  exact (X11_delete_stored Samples.db_one_schedule Samples.sid1
           Samples.schedule_1 eq_refl).
Defined.

(** X12: in every store the handlers reach, a deleted schedule is gone:
    after a successful [delete_schedule] its identifier resolves to
    nothing, so that deleting or toggling it again is answered not
    found. *)
Theorem X12_deleted_is_gone d schedule_id sc :
  reachable d ->
  schedule_of d schedule_id = Some sc ->
  let d' := (delete_schedule d schedule_id).1 in
  schedule_of d' schedule_id = None /\
  delete_schedule d' schedule_id = (d', Err (NotFound "Schedule not found")) /\
  toggle_schedule d' schedule_id = (d', Err (NotFound "Schedule not found")).
Proof.
  intros Hr H d'. destruct (schedule_of_some _ _ _ H) as (o & Ho & Hf).
  destruct (reachable_db_ok d Hr) as [_ _ _ _ _ _ Hnd].
  assert (find_one (by_schedule_id o) (schedules d') = None) as Hgone.
  { subst d'. unfold delete_schedule. rewrite Ho.
    destruct (_ =? _)%nat; simpl; by apply (find_one_delete_one_gone sc_id). }
  split; [|split].
  - unfold schedule_of. by rewrite Ho.
  - unfold delete_schedule. rewrite Ho, (delete_one_none _ _ Hgone). simpl.
    by destruct d'.
  - unfold toggle_schedule. by rewrite Ho, Hgone.
Qed.

Lemma X12_deleted_is_gone_witness :
  (reachable Samples.db_one_schedule /\
   schedule_of Samples.db_one_schedule Samples.sid1 = Some Samples.schedule_1) /\
  let d' := (delete_schedule Samples.db_one_schedule Samples.sid1).1 in
  schedule_of d' Samples.sid1 = None /\
  delete_schedule d' Samples.sid1 = (d', Err (NotFound "Schedule not found")) /\
  toggle_schedule d' Samples.sid1 = (d', Err (NotFound "Schedule not found")).
Proof.
  assert (reachable Samples.db_one_schedule) as Hr.
  { apply reach_create; [constructor|by apply valid_oid_sample|].
    apply not_elem_of_nil. }
  split; [by split|].
  exact (X12_deleted_is_gone Samples.db_one_schedule Samples.sid1
           Samples.schedule_1 Hr eq_refl).
Defined.

Lemma create_schedule_resolves d userId time days name created new_id :
  valid_oid new_id ->
  new_id ∉ (sc_id <$> schedules d) ->
  let r := create_schedule d userId time days name created new_id in
  ObjectId_of_str (str_of_ObjectId (sc_id r.2)) = Some new_id /\
  find_one (by_schedule_id new_id) (schedules r.1) = Some r.2 /\
  delete_one (by_schedule_id new_id) (schedules r.1) = (1%nat, schedules d).
Proof.
  intros Hv Hf. cbn [create_schedule fst snd schedules sc_id].
  pose proof (find_schedule_fresh _ _ Hf) as Hnone.
  assert (by_schedule_id new_id
            (mk_schedule new_id userId time days (Some true) name created)
          = true) as Hp.
  { unfold by_schedule_id. by rewrite bool_decide_eq_true_2. }
  split; [by apply ObjectId_round_trip|]. unfold insert_one. split.
  - rewrite find_one_app, Hnone. cbn [find_one]. by rewrite Hp.
  - by apply delete_one_last.
Qed.

(** X13: [create_schedule] answers with a schedule that is enabled; when
    the driver's identifier is valid and new, the identifier string of the
    answer resolves to the stored schedule, toggling it returns [false],
    deleting it puts the store back as it was before the creation, and
    every schedule that resolved before resolves as before. *)
Theorem X13_created_schedule d userId time days name created new_id :
  valid_oid new_id ->
  new_id ∉ (sc_id <$> schedules d) ->
  let r := create_schedule d userId time days name created new_id in
  let id := str_of_ObjectId (sc_id r.2) in
  r.2 = mk_schedule new_id userId time days (Some true) name created /\
  schedule_of r.1 id = Some r.2 /\
  (toggle_schedule r.1 id).2 = Ok false /\
  delete_schedule r.1 id = (d, Ok "Schedule deleted") /\
  (forall id' sc, schedule_of d id' = Some sc -> schedule_of r.1 id' = Some sc) /\
  focus_sessions r.1 = focus_sessions d /\ user_stats r.1 = user_stats d.
Proof.
  intros Hv Hf r id.
  destruct (create_schedule_resolves d userId time days name created new_id
              Hv Hf) as (Hid & Hfind & Hdel).
  fold r in Hid, Hfind, Hdel. fold id in Hid.
  repeat split; try done.
  - unfold schedule_of. by rewrite Hid.
  - unfold toggle_schedule. by rewrite Hid, Hfind.
  - unfold delete_schedule. rewrite Hid, Hdel. simpl. by destruct d.
  - intros id' sc. unfold schedule_of. destruct (ObjectId_of_str id'); [|done].
    simpl. unfold insert_one. rewrite find_one_app. by intros ->.
Qed.

Lemma X13_created_schedule_witness :
  (valid_oid (Samples.oid 1) /\
   (Samples.oid 1 ∉ (sc_id <$> schedules empty_db))) /\
  let r := create_schedule empty_db "alice" "07:00" ["Mon"] "wake"
             Samples.mon10 (Samples.oid 1) in
  let id := str_of_ObjectId (sc_id r.2) in
  r.2 = mk_schedule (Samples.oid 1) "alice" "07:00" ["Mon"] (Some true) "wake"
          Samples.mon10 /\
  schedule_of r.1 id = Some r.2 /\
  (toggle_schedule r.1 id).2 = Ok false /\
  delete_schedule r.1 id = (empty_db, Ok "Schedule deleted") /\
  (forall id' sc, schedule_of empty_db id' = Some sc ->
                  schedule_of r.1 id' = Some sc) /\
  focus_sessions r.1 = focus_sessions empty_db /\
  user_stats r.1 = user_stats empty_db.
Proof.
  assert (valid_oid (Samples.oid 1)) as Hv by (by apply valid_oid_sample).
  assert (Samples.oid 1 ∉ (sc_id <$> schedules empty_db)) as Hf
    by apply not_elem_of_nil.
  split; [done|].
  exact (X13_created_schedule empty_db "alice" "07:00" ["Mon"] "wake"
           Samples.mon10 (Samples.oid 1) Hv Hf).
Defined.

(** X14: a schedule just created is the last of the list [get_schedules]
    returns for its user when that user had fewer than 100 schedules, and
    is not in the list at all when the user had 100 or more: the list is
    then the same as before the creation. *)
Theorem X14_created_schedule_listed d userId time days name created new_id :
  let r := create_schedule d userId time days name created new_id in
  let n := length (List.filter (by_schedule_user userId) (schedules d)) in
  (get_schedules r.1 userId).2 =
    if decide (n < 100)%nat
    then (get_schedules d userId).2 ++ [render_schedule r.2]
    else (get_schedules d userId).2.
Proof.
  intros r n. unfold get_schedules, find_to_list. simpl. unfold insert_one.
  rewrite List.filter_app. simpl. unfold by_schedule_user at 2. simpl.
  rewrite bool_decide_eq_true_2 by done.
  destruct (decide (n < 100)%nat) as [Hn|Hn].
  - rewrite (take_ge (_ ++ _)) by (rewrite length_app; simpl; fold n; lia).
    rewrite (take_ge (List.filter _ _)) by (fold n; lia).
    by rewrite fmap_app.
  - by rewrite take_app_le by (fold n; lia).
Qed.

(** X15: whatever its outcome, [toggle_schedule] changes nothing but the
    enabled flag of the schedule it names: the sessions, the statistics,
    the identifiers and the order of the schedules, and every schedule
    under another identifier are as they were.  A stored schedule without
    the flag is read as enabled: toggling it returns [false] and stores
    the flag. *)
Theorem X15_toggle_frame d schedule_id :
  let r := toggle_schedule d schedule_id in
  focus_sessions r.1 = focus_sessions d /\ user_stats r.1 = user_stats d /\
  schedule_core <$> schedules r.1 = schedule_core <$> schedules d /\
  (forall id' o o',
     ObjectId_of_str schedule_id = Some o -> ObjectId_of_str id' = Some o' ->
     o <> o' -> schedule_of r.1 id' = schedule_of d id') /\
  (forall sc, schedule_of d schedule_id = Some sc -> enabled sc = None ->
     r.2 = Ok false /\
     schedule_of r.1 schedule_id = Some (set_enabled false sc)).
Proof.
  intros r. subst r. unfold toggle_schedule, schedule_of.
  destruct (ObjectId_of_str schedule_id) as [o|]; [|done].
  destruct (find_one (by_schedule_id o) (schedules d)) as [sc|] eqn:Hf; [|done].
  cbn [fst snd focus_sessions user_stats schedules].
  split; [done|]. split; [done|]. split; [by apply update_one_fmap|]. split.
  - intros id' o1 o' [= <-] -> Hne.
    apply find_one_update_one_frame; intros x Hx; unfold by_schedule_id in *;
      apply bool_decide_eq_true_1 in Hx; apply bool_decide_eq_false_2;
      simpl; congruence.
  - intros sc' [= <-] Hnone. rewrite Hnone. split; [done|].
    apply (find_one_update_one _ (set_enabled false)); [done|].
    apply (find_one_some _ _ _ Hf).
Qed.

(** ** The history of a user *)

Section SortFacts.
Context {A : Type} (key : A -> Z).
Implicit Types (l : list A).

Lemma insert_desc_perm x l : insert_desc key x l ≡ₚ x :: l.
Proof.
  induction l as [|y l IH]; simpl; [done|].
  destruct (key y <? key x); [done|]. rewrite IH. apply Permutation_swap.
Qed.

Lemma sort_desc_perm l : sort_desc key l ≡ₚ l.
Proof.
  induction l as [|y l IH]; simpl; [done|].
  by rewrite insert_desc_perm, IH.
Qed.

Lemma insert_desc_descending x l :
  descending key l -> descending key (insert_desc key x l).
Proof.
  induction l as [|y l IH]; simpl; [done|]. intros [Hy Hl].
  destruct (Z.ltb_spec (key y) (key x)) as [Hlt|Hge]; simpl.
  - split; [|done]. constructor; [lia|].
    eapply Forall_impl; [exact Hy|]. simpl. lia.
  - split; [|by apply IH]. rewrite insert_desc_perm. by constructor.
Qed.

Lemma sort_desc_descending l : descending key (sort_desc key l).
Proof.
  induction l as [|y l IH]; simpl; [done|]. by apply insert_desc_descending.
Qed.

Lemma descending_app l1 l2 :
  descending key (l1 ++ l2) ->
  descending key l1 /\
  forall a b, a ∈ l1 -> b ∈ l2 -> key b <= key a.
Proof.
  induction l1 as [|x l1 IH]; simpl.
  - intros _. split; [done|]. by intros a b ?%elem_of_nil.
  - intros [Hx Hl]. destruct (IH Hl) as [Hd Hab].
    apply Forall_app in Hx as [Hx1 Hx2]. split; [done|].
    intros a b Ha Hb. apply elem_of_cons in Ha as [->|Ha]; [|by apply Hab].
    rewrite Forall_forall in Hx2. by apply Hx2.
Qed.

Lemma descending_lookup l i j a b :
  descending key l -> (i < j)%nat -> l !! i = Some a -> l !! j = Some b ->
  key b <= key a.
Proof.
  revert i j. induction l as [|x l IH]; intros i j Hd Hij Ha Hb; [done|].
  destruct Hd as [Hx Hl]. destruct j as [|j]; [lia|]. simpl in Hb.
  destruct i as [|i]; simpl in Ha.
  - injection Ha as <-. rewrite Forall_forall in Hx. apply Hx.
    by eapply list_elem_of_lookup_2.
  - apply (IH i j); [done|lia|done|done].
Qed.


End SortFacts.

Lemma history_positive d u limit :
  0 < limit ->
  get_session_history d u limit =
    (d, Some (render_session <$>
                take (Z.to_nat limit)
                  (sort_desc (fun s => timestamp (s_createdAt s))
                     (List.filter (by_session_user u) (focus_sessions d))))).
Proof.
  intros H. unfold get_session_history, to_list, cursor_limit.
  destruct (Z.eqb_spec limit 0) as [|_]; [lia|].
  destruct (Z.ltb_spec limit 0) as [|_]; [lia|].
  rewrite take_take. do 4 f_equal. lia.
Qed.

(** X16: for a positive [limit], [get_session_history] returns sessions of
    the user out of the store, as many as the user has but no more than
    [limit], newest first; a session of the user that is left out is no
    newer than any that is returned, and none is left out when the user
    has no more than [limit]; the store is returned as it was. *)
Theorem X16_history d u limit :
  0 < limit ->
  let mine := List.filter (by_session_user u) (focus_sessions d) in
  exists l,
    get_session_history d u limit = (d, Some (render_session <$> l)) /\
    length l = (Z.to_nat limit `min` length mine)%nat /\
    (forall s, s ∈ l -> s ∈ focus_sessions d /\ s_userId s = u) /\
    newest_first l /\
    (forall s a, s ∈ mine -> s ∉ l -> a ∈ l ->
       timestamp (s_createdAt s) <= timestamp (s_createdAt a)) /\
    ((length mine <= Z.to_nat limit)%nat -> l ≡ₚ mine).
Proof.
  intros Hpos mine.
  set (key := fun s => timestamp (s_createdAt s)).
  set (sorted := sort_desc key mine).
  assert (sorted ≡ₚ mine) as Hperm by apply sort_desc_perm.
  assert (descending key sorted) as Hdesc by apply sort_desc_descending.
  exists (take (Z.to_nat limit) sorted).
  split; [by apply history_positive|].
  split; [by rewrite length_take, Hperm|].
  assert (forall s, s ∈ take (Z.to_nat limit) sorted ->
                    s ∈ focus_sessions d /\ s_userId s = u) as Hin.
  { intros s Hs. apply elem_of_take in Hs as (i & Hs & _).
    apply list_elem_of_lookup_2 in Hs. rewrite Hperm in Hs. unfold mine in Hs.
    apply list_elem_of_In, List.filter_In in Hs as [Hs Hu].
    split; [by apply list_elem_of_In|]. by apply bool_decide_eq_true_1 in Hu. }
  split; [done|].
  rewrite <- (take_drop (Z.to_nat limit) sorted) in Hdesc.
  apply descending_app in Hdesc as [Hd1 Hd2].
  split; [|split].
  - intros i j a b Hij Ha Hb.
    by apply (descending_lookup key (take (Z.to_nat limit) sorted) i j).
  - intros s a Hs Hout Ha. apply Hd2; [done|].
    rewrite <- Hperm, <- (take_drop (Z.to_nat limit) sorted) in Hs.
    by apply elem_of_app in Hs as [Hs|Hs].
  - intros Hall. rewrite take_ge; [done|]. by rewrite Hperm.
Qed.

Lemma X16_history_witness :
  0 < 2 /\
  let mine := List.filter (by_session_user "alice")
                (focus_sessions Samples.db_started) in
  exists l,
    get_session_history Samples.db_started "alice" 2
      = (Samples.db_started, Some (render_session <$> l)) /\
    length l = (Z.to_nat 2 `min` length mine)%nat /\
    (forall s, s ∈ l -> s ∈ focus_sessions Samples.db_started /\
                        s_userId s = "alice") /\
    newest_first l /\
    (forall s a, s ∈ mine -> s ∉ l -> a ∈ l ->
       timestamp (s_createdAt s) <= timestamp (s_createdAt a)) /\
    ((length mine <= Z.to_nat 2)%nat -> l ≡ₚ mine).
Proof.
  split; [done|].
  exact (X16_history Samples.db_started "alice" 2 eq_refl).
Defined.

(** The history of the three sample sessions, two at most: Thursday's, then
    Tuesday's. *)
Example history_of_two :
  (fun l => (s_id <$> l.*2)) <$> (get_session_history Samples.db_started "alice" 2).2
  = Some [Samples.oid 3; Samples.oid 2].
Proof. reflexivity. Qed.

(** X17: [get_session_history] with [limit] 0 returns the empty list,
    whatever the user has stored, and with a negative [limit] it fails with
    the uncaught [ValueError] of [to_list]; the store is as it was. *)
Theorem X17_history_without_limit d u limit :
  limit <= 0 ->
  get_session_history d u limit = (d, if limit =? 0 then Some [] else None).
Proof.
  intros H. unfold get_session_history, to_list, cursor_limit.
  destruct (Z.eqb_spec limit 0) as [->|Hne]; [done|].
  by destruct (Z.ltb_spec limit 0) as [|]; [|lia].
Qed.

Lemma X17_history_without_limit_witness :
  -1 <= 0 /\
  get_session_history Samples.db_started "alice" (-1)
    = (Samples.db_started, None).
Proof.
  split; [done|].
  exact (X17_history_without_limit Samples.db_started "alice" (-1)
           ltac:(done)).
Defined.



(** ** Streaks over runs *)

Lemma elapsed_is_Some_session d c :
  is_Some (elapsed d c) -> is_Some (session_of d (c_sessionId c)).
Proof.
  unfold elapsed. destruct (session_of d (c_sessionId c)); [by eexists|].
  by intros [? ?].
Qed.

(** Requests of one user on consecutive days add one to the streak
    each. *)
Lemma run_streak u cs : forall d st s last,
  stats_of d u = Some st ->
  currentStreak st = Some s -> lastSessionDate st = Some last ->
  week_shaped d u ->
  Forall (fun c => c_userId c = u /\ is_Some (elapsed d c)) cs ->
  consecutive_days last (c_now <$> cs) ->
  exists st',
    stats_of (run d cs) u = Some st' /\
    currentStreak st' = Some (s + Z.of_nat (length cs)).
Proof.
  induction cs as [|c cs IH]; intros d st s last Hst Hs Hlast Hw Hcs Hdays.
  - exists st. split; [done|]. rewrite Hs. f_equal. simpl. lia.
  - inversion Hcs as [|? ? [Hu He] Hcs']; subst. destruct Hdays as [Hday Hdays].
    destruct (elapsed_is_Some_session _ _ He) as [sess Hsess].
    destruct (complete_session_succeeds d (c_sessionId c) (c_userId c) (c_now c)
                (c_new_id c) sess Hsess Hw) as [d' Hd'].
    pose proof (stats_of_complete_same _ _ _ _ _ _ _ Hd') as Hsame.
    rewrite Hst in Hsame. destruct Hsame as (w & _ & Hst').
    rewrite run_cons. unfold complete at 1. rewrite Hd'. cbn [fst].
    destruct (IH d' _ (s + 1) (c_now c) Hst') as (st' & Hrun & Hstreak).
    + simpl. unfold next_streak. rewrite Hlast, Hs, Hday. done.
    + done.
    + pose proof (week_shaped_complete d c (c_userId c) Hw) as Hw'.
      unfold complete in Hw'. by rewrite Hd' in Hw'.
    + eapply Forall_impl; [exact Hcs'|]. intros c' [Hu' He']. split; [done|].
      pose proof (elapsed_complete d c c') as Hel. unfold complete in Hel.
      rewrite Hd' in Hel. cbn [fst] in Hel. by rewrite Hel.
    + done.
    + exists st'. split; [done|]. rewrite Hstreak. f_equal. simpl length. lia.
Qed.

(** X19: for a user without statistics, requests for stored sessions on
    consecutive calendar days, one a day, all succeed and leave a streak
    that is their number. *)
Theorem X19_streak_of_consecutive_days u d c cs :
  stats_of d u = None ->
  Forall (fun c => c_userId c = u /\ is_Some (elapsed d c)) (c :: cs) ->
  consecutive_days (c_now c) (c_now <$> cs) ->
  exists st,
    stats_of (run d (c :: cs)) u = Some st /\
    currentStreak st = Some (Z.of_nat (length (c :: cs))).
Proof.
  intros Hst Hcs Hdays. inversion Hcs as [|? ? [Hu He] Hcs']; subst.
  destruct (elapsed_is_Some_session _ _ He) as [sess Hsess].
  assert (week_shaped d (c_userId c)) as Hw by (unfold week_shaped; by rewrite Hst).
  destruct (complete_session_succeeds d (c_sessionId c) (c_userId c) (c_now c)
              (c_new_id c) sess Hsess Hw) as [d' Hd'].
  pose proof (stats_of_complete_same _ _ _ _ _ _ _ Hd') as Hsame.
  rewrite Hst in Hsame. destruct Hsame as (w & _ & Hst').
  rewrite run_cons. unfold complete at 1. rewrite Hd'. cbn [fst].
  destruct (run_streak (c_userId c) cs d' _ 1 (c_now c) Hst') as (st & Hrun & Hk);
    try done.
  - pose proof (week_shaped_complete d c (c_userId c) Hw) as Hw'.
    unfold complete in Hw'. by rewrite Hd' in Hw'.
  - eapply Forall_impl; [exact Hcs'|]. intros c' [Hu' He']. split; [done|].
    pose proof (elapsed_complete d c c') as Hel. unfold complete in Hel.
    rewrite Hd' in Hel. cbn [fst] in Hel. by rewrite Hel.
  - exists st. split; [done|]. rewrite Hk. f_equal. simpl length. lia.
Qed.

Lemma X19_streak_of_consecutive_days_witness :
  (stats_of Samples.db_started "alice" = None /\
   Forall (fun c => c_userId c = "alice" /\
                    is_Some (elapsed Samples.db_started c))
     [Samples.first_done; Samples.second_done] /\
   consecutive_days (c_now Samples.first_done)
     (c_now <$> [Samples.second_done])) /\
  exists st,
    stats_of (run Samples.db_started [Samples.first_done; Samples.second_done])
      "alice" = Some st /\
    currentStreak st = Some (Z.of_nat 2).
Proof.
  assert (Forall (fun c => c_userId c = "alice" /\
                    is_Some (elapsed Samples.db_started c))
            [Samples.first_done; Samples.second_done]) as Hcs
    by (repeat constructor; by eexists).
  assert (consecutive_days (c_now Samples.first_done)
            (c_now <$> [Samples.second_done])) as Hdays by done.
  split; [done|].
  exact (X19_streak_of_consecutive_days "alice" Samples.db_started
           Samples.first_done [Samples.second_done] eq_refl Hcs Hdays).
Defined.

(** X20: after any run of requests the stored [lastSessionDate] of a user
    is the time of the last request that succeeded for that user, whether
    or not an earlier one was recorded at a later time; it is what it was
    when none succeeded. *)
Theorem X20_last_session_date u d cs :
  (stats_of (run d cs) u ≫= lastSessionDate) =
  match last (credited u d cs) with
  | Some e => Some e.1
  | None => stats_of d u ≫= lastSessionDate
  end.
Proof.
  revert d. induction cs as [|c cs IH]; intros d; [done|].
  rewrite run_cons, IH.
  destruct (complete_cases u d c) as [(Hu & h & Hc)|Hskip].
  - rewrite (credited_count u d c cs h Hu) by (by rewrite Hc).
    pose proof (stats_of_complete_same _ _ _ _ _ _ _ Hc) as Hs.
    rewrite Hu in Hs.
    destruct (credited u (complete d c).1 cs) as [|e l] eqn:E.
    + simpl. destruct (stats_of d u); destruct Hs as (w & _ & ->); done.
    + rewrite (last_cons_cons (c_now c, h)).
      destruct (last (e :: l)) eqn:El; [done|]. by apply last_None in El.
  - rewrite (credited_skip u d c cs Hskip).
    by rewrite (stats_of_complete_skip d c u Hskip).
Qed.

(** A session completed on Tuesday, then another on Monday of the same
    week: the date goes back, and the streak starts again. *)
Example last_session_date_goes_back :
  let d := run Samples.db_started
             [Samples.second_done;
              mk_completion Samples.sid1 "alice" Samples.mon12 (Samples.oid 9)] in
  (fun st => (lastSessionDate st, currentStreak st)) <$> stats_of d "alice"
  = Some (Some Samples.mon12, Some 1).
Proof. reflexivity. Qed.

(** ** Statistics with fields missing, and statistics read back *)

(** X21: stored statistics that lack [currentStreak] get a streak of 1 from
    a completion, whatever the date of the last session; stored statistics
    that lack [weeklyData] get a table of seven entries that holds the
    duration, added to [0.0], at the weekday of the completion and [0.0]
    elsewhere. *)
Theorem X21_missing_fields d sid u now nid d' h st :
  stats_of d u = Some st ->
  complete_session d sid u now nid = (d', Ok h) ->
  exists st',
    stats_of d' u = Some st' /\
    (currentStreak st = None -> currentStreak st' = Some 1) /\
    (weeklyData st = None ->
     weeklyData st' =
       Some (<[Z.to_nat (weekday now) := (0 + h)%float]> zeros7)).
Proof.
  intros Hst H. pose proof (stats_of_complete_same _ _ _ _ _ _ _ H) as Hs.
  rewrite Hst in Hs. destruct Hs as (w & Hadd & Hs).
  eexists. split; [exact Hs|]. split.
  - intros Hnone. simpl. unfold next_streak. rewrite Hnone. simpl.
    by repeat case_match.
  - intros Hnone. rewrite Hnone in Hadd. simpl in Hadd.
    destruct (add_at_inv _ _ _ _ Hadd) as (y & Hy & ->).
    apply zeros7_lookup in Hy as ->. done.
Qed.

Lemma X21_missing_fields_witness :
  (stats_of Samples2.db_bare "bob" = Some Samples2.bare_stats /\
   complete_session Samples2.db_bare Samples.sid1 "bob" Samples.mon12
     (Samples.oid 201) = (Samples2.db_bare_done, Ok 2%float)) /\
  exists st',
    stats_of Samples2.db_bare_done "bob" = Some st' /\
    (currentStreak Samples2.bare_stats = None -> currentStreak st' = Some 1) /\
    (weeklyData Samples2.bare_stats = None ->
     weeklyData st' =
       Some (<[Z.to_nat (weekday Samples.mon12) := (0 + 2)%float]> zeros7)).
Proof.
  split; [done|].
  exact (X21_missing_fields Samples2.db_bare Samples.sid1 "bob" Samples.mon12
           (Samples.oid 201) Samples2.db_bare_done 2%float Samples2.bare_stats
           eq_refl eq_refl).
Defined.

(** X22: in every store the handlers reach, [get_stats] for a user with
    stored statistics returns the fields of that user's document together
    with an identifier string that reads back as the document's
    identifier, and returns the store as it was. *)
Theorem X22_get_stats_stored d u st :
  reachable d -> stats_of d u = Some st ->
  exists id,
    get_stats d u =
      (d, mk_stats_response (Some id) u (totalHours st) (sessionsCount st)
            (currentStreak st) (lastSessionDate st) (weeklyData st)) /\
    ObjectId_of_str id = Some (st_id st) /\
    String.length id = 24%nat.
Proof.
  intros Hr Hst. destruct (reachable_db_ok d Hr) as [_ _ Hok _ _ _ _].
  rewrite Forall_forall in Hok.
  destruct (Hok st (find_one_elem_of _ _ _ Hst)) as [_ Hv].
  exists (str_of_ObjectId (st_id st)). unfold stats_of in Hst.
  unfold get_stats. rewrite Hst. split; [|split].
  - apply find_one_some in Hst. apply bool_decide_eq_true_1 in Hst.
    by rewrite Hst.
  - by apply ObjectId_round_trip.
  - rewrite length_str_of_ObjectId. by destruct Hv as [-> _].
Qed.

Lemma X22_get_stats_stored_witness :
  (reachable Samples2.db_done /\
   stats_of Samples2.db_done "alice" = Some Samples2.stats_done) /\
  exists id,
    get_stats Samples2.db_done "alice" =
      (Samples2.db_done,
       mk_stats_response (Some id) "alice" 2%float 1 (Some 1)
         (Some Samples.mon12) (Some [2; 0; 0; 0; 0; 0; 0]%float)) /\
    ObjectId_of_str id = Some (Samples.oid 101) /\
    String.length id = 24%nat.
Proof.
  split; [split; [apply reachable_db_done|done]|].
  exact (X22_get_stats_stored Samples2.db_done "alice" Samples2.stats_done
           reachable_db_done eq_refl).
Defined.

(** ** The history across a completion *)

Section SameCore.
Context {A : Type} (R : A -> A -> Prop).
Implicit Types (l : list A).

Lemma insert_desc_Forall2 (key : A -> Z) x y l l' :
  (forall a b, R a b -> key a = key b) ->
  R x y -> Forall2 R l l' ->
  Forall2 R (insert_desc key x l) (insert_desc key y l').
Proof.
  intros Hkey Hxy. induction 1 as [|a b l l' Hab Hl IH]; simpl.
  - by repeat constructor.
  - rewrite (Hkey _ _ Hab), (Hkey _ _ Hxy).
    destruct (key b <? key y); by repeat constructor.
Qed.

Lemma sort_desc_Forall2 (key : A -> Z) l l' :
  (forall a b, R a b -> key a = key b) ->
  Forall2 R l l' -> Forall2 R (sort_desc key l) (sort_desc key l').
Proof.
  intros Hkey. induction 1 as [|a b l l' Hab Hl IH]; simpl; [constructor|].
  by apply insert_desc_Forall2.
Qed.

Lemma filter_Forall2 (p : A -> bool) l l' :
  (forall a b, R a b -> p a = p b) ->
  Forall2 R l l' -> Forall2 R (List.filter p l) (List.filter p l').
Proof.
  intros Hp. induction 1 as [|a b l l' Hab Hl IH]; simpl; [constructor|].
  rewrite (Hp _ _ Hab). destruct (p b); by repeat constructor.
Qed.

Lemma update_one_Forall2 (p : A -> bool) (f : A -> A) l :
  (forall x, R x x) -> (forall x, R (f x) x) ->
  Forall2 R (update_one p f l) l.
Proof.
  intros Hrefl Hf. induction l as [|y l IH]; simpl; [constructor|].
  destruct (p y); constructor; try done. by apply Forall_Forall2_diag, Forall_true.
Qed.

End SameCore.

(** X23: a completion does not change a history: whatever its outcome, the
    history of whichever user and [limit] lists afterwards the sessions it
    listed before, in the same order, each as it was started. *)
Theorem X23_history_across_completion d sid u now nid v limit :
  let d' := (complete_session d sid u now nid).1 in
  match (get_session_history d' v limit).2, (get_session_history d v limit).2 with
  | Some l', Some l =>
      l'.*1 = l.*1 /\ session_core <$> l'.*2 = session_core <$> l.*2
  | None, None => True
  | _, _ => False
  end.
Proof.
  intros d'.
  set (R := fun a b : session_doc => session_core a = session_core b).
  assert (Forall2 R (focus_sessions d') (focus_sessions d)) as HR.
  { destruct (complete_session_sessions d sid u now nid) as [H|[o H]];
      fold d' in H; rewrite H.
    - by apply Forall_Forall2_diag, Forall_true.
    - by apply update_one_Forall2. }
  unfold get_session_history, to_list, cursor_limit. cbn [snd].
  destruct (limit <? 0); [done|].
  set (key := fun s => timestamp (s_createdAt s)).
  assert (Forall2 R
            (sort_desc key (List.filter (by_session_user v) (focus_sessions d')))
            (sort_desc key (List.filter (by_session_user v) (focus_sessions d))))
    as Hsorted.
  { apply sort_desc_Forall2.
    { intros a b [= _ _ _ _ _ Hc]. unfold key. by rewrite Hc. }
    apply filter_Forall2; [|done]. intros a b [= _ Hu _ _ _ _].
    unfold by_session_user. by rewrite Hu. }
  assert (forall l' l, Forall2 R l' l ->
            (render_session <$> l').*1 = (render_session <$> l).*1 /\
            session_core <$> (render_session <$> l').*2
              = session_core <$> (render_session <$> l).*2) as Hout.
  { induction 1 as [|a b l' l Hab Hl [IH1 IH2]]; [done|].
    rewrite !fmap_cons. split.
    - rewrite IH1. f_equal. simpl. by injection Hab as -> _ _ _ _ _.
    - rewrite IH2. f_equal. exact Hab. }
  apply Hout. apply Forall2_take.
  destruct (limit =? 0); [done|]. by apply Forall2_take.
Qed.

(** ** The duration a completion returns *)

(** X24: the duration a successful completion returns is never a NaN, and
    it is not negative, nor the negative zero, when the completion is not
    before the session's start. *)
Theorem X24_returned_duration d sid u now nid d' h :
  complete_session d sid u now nid = (d', Ok h) ->
  exists s,
    session_of d sid = Some s /\
    Prim2SF h <> S754_nan /\
    (0 <= sub_microseconds now (startTime s) ->
     match Prim2SF h with
     | S754_zero sign | S754_infinity sign | S754_finite sign _ _ => sign = false
     | S754_nan => False
     end).
Proof.
  intros H.
  destruct (complete_session_ok_session _ _ _ _ _ _ _ H) as (s & Hs & -> & _).
  exists s. split; [done|].
  pose proof (actual_duration_is_number (startTime s) now) as Hn.
  split; [done|]. intros Hpos.
  pose proof (actual_duration_sign_clear (startTime s) now Hpos) as Hc.
  by destruct (Prim2SF (actual_duration (startTime s) now)).
Qed.

Lemma X24_returned_duration_witness :
  complete_session Samples2.started1.1 Samples.sid1 "alice" Samples.mon12
    (Samples.oid 101) = (Samples2.db_done, Ok 2%float) /\
  exists s,
    session_of Samples2.started1.1 Samples.sid1 = Some s /\
    Prim2SF 2 <> S754_nan /\
    (0 <= sub_microseconds Samples.mon12 (startTime s) ->
     match Prim2SF 2 with
     | S754_zero sign | S754_infinity sign | S754_finite sign _ _ => sign = false
     | S754_nan => False
     end).
Proof.
  split; [done|].
  exact (X24_returned_duration Samples2.started1.1 Samples.sid1 "alice"
           Samples.mon12 (Samples.oid 101) Samples2.db_done 2%float eq_refl).
Defined.
